(** * Multi-agent proposal generator (app.py): a shallow embedding

    The program is a Streamlit form driving a four-stage agent pipeline.
    Everything it does is an effect on its surroundings: it reads and
    sets environment variables, calls search providers and a language
    model over the network, reads the wall clock and writes one file.
    The embedding threads a [World] through an error-and-state monad
    and records boundary calls in an append-only trace, so that
    ordering ("before"), absence ("no network call") and content
    ("written verbatim") are all statements about the final world. *)

From Stdlib Require Import Ascii String NArith Lia.
From stdpp Require Import base strings gmap list.

Open Scope string_scope.
Open Scope list_scope.

(** ** Python values used by the program *)

(** A Python exception, reduced to what the program observes: [str(e)]. *)
Inductive exn : Type :=
| Exception (message : string).

Definition str (e : exn) : string :=
  match e with Exception m => m end.

(** Outcome of a call: a value, or an exception on its way up. *)
Inductive result (A : Type) : Type :=
| Ret (a : A)
| Raise (e : exn).
Arguments Ret {A} a.
Arguments Raise {A} e.

(** An f-string interpolating [os.getenv(...)]: [None] prints as "None". *)
Definition fmt_opt (o : option string) : string :=
  match o with
  | Some s => s
  | None => "None"
  end.

(** Truth value of a Python string: empty is falsy. *)
Definition truthy (s : string) : bool :=
  match s with
  | EmptyString => false
  | String _ _ => true
  end.

(** [all([...])] on a list of strings. *)
Definition all (l : list string) : bool := forallb truthy l.

(** ** datetime and strftime *)

Record datetime : Type := {
  year : N; month : N; day : N;
  hour : N; minute : N; second : N;
  microsecond : N
}.

(** The ranges Python's [datetime] enforces on its fields. *)
Definition valid_datetime (d : datetime) : Prop :=
  (1 <= year d <= 9999 /\ 1 <= month d <= 12 /\ 1 <= day d <= 31 /\
   hour d < 24 /\ minute d < 60 /\ second d < 60 /\
   microsecond d < 1000000)%N.

(** The instant with the sub-second part dropped. *)
Definition to_second (d : datetime) : datetime :=
  {| year := year d; month := month d; day := day d;
     hour := hour d; minute := minute d; second := second d;
     microsecond := 0 |}.

Definition digit (n : N) : ascii :=
  ascii_of_N (48 + n mod 10).

(** [%m], [%d], [%H], [%M], [%S]: two digits, zero padded. *)
Definition pad2 (n : N) : string :=
  String (digit (n / 10)) (String (digit n) EmptyString).

(** [%Y]: the year with century, four digits, zero padded. *)
Definition pad4 (n : N) : string :=
  String (digit (n / 1000)) (String (digit (n / 100)) (pad2 n)).

(** [d.strftime("%Y%m%d_%H%M%S")] *)
Definition strftime (d : datetime) : string :=
  pad4 (year d) +:+ pad2 (month d) +:+ pad2 (day d) +:+ "_" +:+
  pad2 (hour d) +:+ pad2 (minute d) +:+ pad2 (second d).

(** ** Line ends in text files *)

Definition LF : ascii := "010"%char.
Definition CR : ascii := "013"%char.

(** The two values [os.linesep] takes: LF on POSIX hosts, CR LF on
    Windows. *)
Definition posix_linesep : string := String LF EmptyString.
Definition windows_linesep : string := String CR (String LF EmptyString).

(** Text mode on output ([open(path, "w")], with the default
    [newline=None]): every line feed written is stored as the host's
    line separator [os.linesep]. *)
Fixpoint newlines_out (linesep s : string) : string :=
  match s with
  | EmptyString => EmptyString
  | String c rest =>
      if Ascii.eqb c LF then linesep +:+ newlines_out linesep rest
      else String c (newlines_out linesep rest)
  end.

(** Text mode on input ([open(path, 'r')], universal newlines): a
    CR LF pair and a lone CR are both read as one line feed. *)
Fixpoint universal_newlines (s : string) : string :=
  match s with
  | EmptyString => EmptyString
  | String c rest =>
      if Ascii.eqb c CR then
        match rest with
        | String c' rest' =>
            if Ascii.eqb c' LF then String LF (universal_newlines rest')
            else String LF (universal_newlines rest)
        | EmptyString => String LF EmptyString
        end
      else String c (universal_newlines rest)
  end.

(** ** The world the program acts on *)

(** Outbound requests. *)
Inductive Request : Type :=
| TavilySearch (api_key : option string) (query : string)
| HttpGet (url : string) (headers : list (string * string))
| ChatCompletion (role : string).

(** Streamlit calls, in the order the script issues them. *)
Inductive Widget : Type :=
| set_page_config (page_title layout initial_sidebar_state : string)
| title (body : string)
| header (body : string)
| text_input (label kind : string) (placeholder : option string)
| warning (body : string)
| markdown (body : string)
| columns (spec : list nat)
| button (label : string) (disabled : bool)
| error (body : string)
| spinner (text : string)
| progress (value : nat)
| empty
| status_text (body : string)
| download_button (label data file_name mime : string)
| metric (label value : string).

(** The trace is a call-order recorder: Streamlit calls, entries into
    the constructors and methods the script calls ([EvCall], which has
    no effect of its own), outbound requests, and the start and end of
    each task execution with the context it was given and the text it
    produced. *)
Inductive Event : Type :=
| EvUI (u : Widget)
| EvCall (callee : string)
| EvNet (r : Request)
| EvTaskStart (role context : string)
| EvTaskEnd (role output : string).

Record World : Type := {
  environ : gmap string string;   (* os.environ *)
  files : gmap string string;     (* working directory: path to stored text *)
  trace : list Event              (* boundary calls so far, oldest first *)
}.

(** ** The monad of the script: state plus exceptions *)

Definition M (A : Type) : Type := World -> result A * World.

Definition ret {A} (a : A) : M A := fun w => (Ret a, w).

Definition raise {A} (e : exn) : M A := fun w => (Raise e, w).

Definition bind {A B} (m : M A) (k : A -> M B) : M B :=
  fun w =>
    match m w with
    | (Ret a, w') => k a w'
    | (Raise e, w') => (Raise e, w')
    end.

Declare Scope py_scope.
Delimit Scope py_scope with py.
Notation "x <- c ;; k" := (bind c (fun x => k))
  (at level 100, c at next level, right associativity) : py_scope.
Notation "c ;;; k" := (bind c (fun _ => k))
  (at level 100, right associativity) : py_scope.
Open Scope py_scope.

(** [try: body except Exception as e: handler e].  Effects of the body
    up to the raise stay in place. *)
Definition try_except {A} (body : M A) (handler : exn -> M A) : M A :=
  fun w =>
    match body w with
    | (Ret a, w') => (Ret a, w')
    | (Raise e, w') => handler e w'
    end.

(** A call whose outcome the world decides. *)
Definition lift {A} (r : result A) : M A := fun w => (r, w).

Definition emit (ev : Event) : M unit :=
  fun w => (Ret tt, {| environ := environ w; files := files w;
                       trace := trace w ++ [ev] |}).

Definition st (u : Widget) : M unit := emit (EvUI u).

(** [os.getenv(k)] *)
Definition getenv (k : string) : M (option string) :=
  fun w => (Ret (environ w !! k), w).

(** The world with one environment variable set. *)
Definition set_environ (w : World) (k v : string) : World :=
  {| environ := <[k := v]> (environ w); files := files w;
     trace := trace w |}.

(** [os.environ[k] = v] *)
Definition setenv (k v : string) : M unit :=
  fun w => (Ret tt, set_environ w k v).

(** [with open(path, 'r') as f: f.read()]: the stored text, with its
    line ends as text mode reads them. *)
Definition read_file (path : string) : M string :=
  fun w =>
    match files w !! path with
    | Some content => (Ret (universal_newlines content), w)
    | None =>
        (Raise (Exception ("[Errno 2] No such file or directory: '"
                           +:+ path +:+ "'")), w)
    end.

(** [for x in xs: body x] *)
Fixpoint for_each {A} (xs : list A) (body : A -> M unit) : M unit :=
  match xs with
  | [] => ret tt
  | x :: rest => body x ;;; for_each rest body
  end.

(** [enumerate(xs)] *)
Fixpoint enumerate_from {A} (i : nat) (xs : list A) : list (nat * A) :=
  match xs with
  | [] => []
  | x :: rest => (i, x) :: enumerate_from (S i) rest
  end.

Definition enumerate {A} (xs : list A) : list (nat * A) := enumerate_from 0 xs.

(** ** Framework objects built by the program *)

(** [langchain_community.chat_models.ChatOpenAI]: the model handle.
    The temperature is kept as the literal the source writes. *)
Module ChatOpenAI.
Record t : Type := {
  temperature : string;
  model : string;
  openai_api_key : option string
}.
End ChatOpenAI.

(** [tavily.TavilyClient] *)
Module TavilyClient.
Record t : Type := { api_key : option string }.
End TavilyClient.

(** [langchain.tools.Tool]: a named callable from a query to text. *)
Module Tool.
Record t : Type := {
  name : string;
  func : string -> M string;
  description : string
}.
End Tool.

(** [crewai.Agent] *)
Module Agent.
Record t : Type := {
  role : string;
  goal : string;
  backstory : string;
  tools : list Tool.t;
  llm : ChatOpenAI.t;
  verbose : bool
}.
End Agent.

(** [crewai.Task] *)
Module Task.
Record t : Type := {
  description : string;
  agent : Agent.t
}.
End Task.

(** [crewai.Process], with the one member the program uses. *)
Inductive Process : Type :=
| sequential.

(** [crewai.Crew] *)
Module Crew.
Record t : Type := {
  agents : list Agent.t;
  tasks : list Task.t;
  process : Process;
  verbose : bool
}.
End Crew.

(** ** The providers behind the boundary *)

(** Modelled from the spec: what an agent does with a task happens in
    the agent framework and the model, neither of which is in the
    repository.  The spec describes it as model calls interleaved with
    calls of the agent's tools.  One task execution is a finite
    exchange: the model either answers, fails, or asks for one of the
    agent's tools with a query and goes on from the text the tool
    returned. *)
Inductive AgentRun : Type :=
| Answer (output : string)
| Crash (e : exn)
| Act (tool_name query : string) (k : string -> AgentRun).

(** What the model is sent for one task. *)
Record Prompt : Type := {
  prompt_role : string;
  prompt_goal : string;
  prompt_backstory : string;
  prompt_tools : list (string * string);
  prompt_instruction : string;
  prompt_context : string
}.

(** Every collaborator outside the program, as a function of what the
    program hands it.  Theorems quantify over all of them. *)
Record Providers : Type := {
  JSON : Type;
  Response : Type;
  (* TavilyClient(api_key=k).search(query=q) *)
  tavily_api : option string -> string -> result JSON;
  (* requests.get(url, headers=h) *)
  http_get : string -> list (string * string) -> result Response;
  (* response.json() *)
  response_json : Response -> result JSON;
  (* json.dumps(obj, indent=2) *)
  json_dumps : JSON -> result string;
  (* constructors of the two clients: None when they accept the key *)
  chat_openai_error : option string -> option exn;
  tavily_client_error : option string -> option exn;
  (* the model's conduct on one task *)
  chat : ChatOpenAI.t -> Prompt -> AgentRun;
  (* the executor's reply when the model names a tool the agent lacks *)
  unknown_tool : string -> string;
  (* open(path, "w"): None when the destination can be opened *)
  open_error : string -> option exn;
  (* f.write(content) on the file opened at path: None when the text
     reaches the file, otherwise the exception raised and the text the
     file is left with (nothing when the text cannot be encoded) *)
  write_error : string -> string -> option (exn * string);
  (* os.linesep *)
  linesep : string;
  (* the wall clock, which moves on as things happen *)
  wall_clock : list Event -> datetime
}.

(** [datetime.now()]: the clock reading at this point of the run. *)
Definition datetime_now (P : Providers) : M datetime :=
  fun w => (Ret (wall_clock P (trace w)), w).

(** The world with the file at [path] holding [text], whatever it held
    before. *)
Definition store (w : World) (path text : string) : World :=
  {| environ := environ w; files := <[path := text]> (files w);
     trace := trace w |}.

(** [with open(path, "w") as f: f.write(content)].  When [open] fails
    nothing is created.  Once it has succeeded the file exists and is
    empty, an earlier file of that name being truncated; [f.write] then
    either raises, leaving the file with what had reached it, or puts
    the text there, line feeds as the host's line separator. *)
Definition write_file (P : Providers) (path content : string) : M unit :=
  fun w =>
    match open_error P path with
    | Some e => (Raise e, w)
    | None =>
        let opened := store w path "" in
        match write_error P path content with
        | Some (e, partial) => (Raise e, store opened path partial)
        | None =>
            (Ret tt, store opened path (newlines_out (linesep P) content))
        end
    end.

(** ** class Tools *)
Module Tools.
Record t : Type := { tavily_client : TavilyClient.t }.

Section WithProviders.
Context (P : Providers).

Definition __init__ : M t :=
  key <- getenv "TAVILY_API_KEY" ;;
  emit (EvCall "TavilyClient") ;;;
  match tavily_client_error P key with
  | Some e => raise e
  | None => ret {| tavily_client := {| TavilyClient.api_key := key |} |}
  end.

Definition tavily_search (self : t) (query : string) : M string :=
  try_except
    (emit (EvNet (TavilySearch (TavilyClient.api_key (tavily_client self))
                               query)) ;;;
     search_result <-
       lift (tavily_api P (TavilyClient.api_key (tavily_client self))
                        query) ;;
     lift (json_dumps P search_result))
    (fun e => ret ("Error performing search: " +:+ str e)).

Definition kaggle_endpoint : string :=
  "https://www.kaggle.com/api/v1/search/datasets?search=".

Definition search_kaggle (self : t) (query : string) : M string :=
  try_except
    (let url := kaggle_endpoint +:+ query in
     token <- getenv "KAGGLE_API_TOKEN" ;;
     let headers := [("Authorization", "Bearer " +:+ fmt_opt token)] in
     emit (EvNet (HttpGet url headers)) ;;;
     response <- lift (http_get P url headers) ;;
     body <- lift (response_json P response) ;;
     lift (json_dumps P body))
    (fun e => ret ("Error searching Kaggle: " +:+ str e)).

Definition huggingface_endpoint : string :=
  "https://huggingface.co/api/datasets?search=".

Definition search_huggingface (self : t) (query : string) : M string :=
  try_except
    (let url := huggingface_endpoint +:+ query in
     emit (EvNet (HttpGet url [])) ;;;
     response <- lift (http_get P url []) ;;
     body <- lift (response_json P response) ;;
     lift (json_dumps P body))
    (fun e => ret ("Error searching HuggingFace: " +:+ str e)).
End WithProviders.
End Tools.

(** ** class AgentFactory *)
Module AgentFactory.
Record t : Type := { llm : ChatOpenAI.t; tools : Tools.t }.

Definition __init__ (llm : ChatOpenAI.t) (tools : Tools.t) : t :=
  {| llm := llm; tools := tools |}.

Section WithProviders.
Context (P : Providers).

Definition create_research_agent (self : t) : Agent.t :=
  {| Agent.role := "Industry Research Specialist";
     Agent.goal := "Conduct comprehensive industry and company research";
     Agent.backstory := "Expert in market research and industry analysis with 
            extensive experience in technology sector analysis.";
     Agent.tools :=
       [ {| Tool.name := "Web Search";
            Tool.func := Tools.tavily_search P (tools self);
            Tool.description :=
              "Search for company and industry information" |} ];
     Agent.llm := llm self;
     Agent.verbose := true |}.

Definition create_market_standards_agent (self : t) : Agent.t :=
  {| Agent.role := "AI/ML Strategy Consultant";
     Agent.goal :=
       "Analyze market trends and generate relevant AI/ML use cases";
     Agent.backstory := "Senior AI consultant specializing in identifying and 
            evaluating AI/ML opportunities across industries.";
     Agent.tools :=
       [ {| Tool.name := "Web Search";
            Tool.func := Tools.tavily_search P (tools self);
            Tool.description :=
              "Search for AI/ML trends and use cases" |} ];
     Agent.llm := llm self;
     Agent.verbose := true |}.

Definition create_resource_agent (self : t) : Agent.t :=
  {| Agent.role := "Technical Resource Specialist";
     Agent.goal := "Identify and validate AI/ML resources and datasets";
     Agent.backstory := "Technical expert in AI/ML resources with deep knowledge 
            of available datasets, models, and implementations.";
     Agent.tools :=
       [ {| Tool.name := "Kaggle Search";
            Tool.func := Tools.search_kaggle P (tools self);
            Tool.description := "Search for datasets on Kaggle" |};
         {| Tool.name := "HuggingFace Search";
            Tool.func := Tools.search_huggingface P (tools self);
            Tool.description :=
              "Search for models and datasets on HuggingFace" |} ];
     Agent.llm := llm self;
     Agent.verbose := true |}.

Definition create_proposal_agent (self : t) : Agent.t :=
  {| Agent.role := "AI Solution Architect";
     Agent.goal := "Create comprehensive AI implementation proposals";
     Agent.backstory := "Senior solution architect specializing in creating 
            detailed and actionable AI implementation plans.";
     Agent.tools := [];
     Agent.llm := llm self;
     Agent.verbose := true |}.
End WithProviders.
End AgentFactory.

(** ** class TaskFactory *)
Module TaskFactory.
Definition create_research_task (agent : Agent.t) (company_name : string)
  : Task.t :=
  {| Task.description :=
       "Thoroughly research " +:+ company_name +:+ " and their industry:
            1. Industry classification and market position
            2. Core products/services and target markets
            3. Technology stack and digital maturity
            4. Key competitors and their AI initiatives
            5. Strategic focus areas and challenges

            Provide a detailed JSON report covering all aspects.";
     Task.agent := agent |}.

Definition create_market_task (agent : Agent.t) (company_name : string)
  : Task.t :=
  {| Task.description :=
       "Analyze AI/ML opportunities for " +:+ company_name +:+ ":
            1. Current industry AI/ML trends
            2. Generate 5 specific use cases with:
               - Detailed description
               - Expected benefits
               - Required technologies
               - Implementation complexity
               - ROI estimation
               - Priority level
            3. Competitive analysis of AI adoption

            Format as structured JSON with clear sections.";
     Task.agent := agent |}.

Definition create_resource_task (agent : Agent.t) : Task.t :=
  {| Task.description := "For each identified use case:
            1. Find relevant datasets (Kaggle/HuggingFace)
            2. Identify similar implementations
            3. List required technologies
            4. Estimate resource requirements

            Create a comprehensive JSON report with links.";
     Task.agent := agent |}.

Definition create_proposal_task (agent : Agent.t) : Task.t :=
  {| Task.description := "Generate a detailed implementation proposal:
            1. Executive Summary
            2. Company & Industry Analysis
            3. AI/ML Opportunity Assessment
            4. Detailed Use Cases
               - Implementation requirements
               - Resource needs
               - Timeline
            5. Risk Analysis
            6. ROI Projections
            7. Next Steps

            Format in professional Markdown with all resources linked.";
     Task.agent := agent |}.
End TaskFactory.

(** ** The agent framework

    Modelled from the spec: [Crew.kickoff] and the task execution under
    it belong to the agent framework, which the program imports and
    whose code is not part of the repository.  The spec gives their
    contract: tasks run one after another in list order; a task starts
    only after the one before it has completed and its output has been
    appended to the run context; each task is given the concatenation
    of all earlier outputs; a failure in a task is not caught; the
    result is the text of the last task. *)
Section Framework.
Context (P : Providers).

(** Modelled from the spec: the framework's tool dispatch, which looks
    the named tool up among those attached to the agent. *)
Definition call_tool (tools : list Tool.t) (tool_name query : string)
  : M string :=
  match List.find (fun t => String.eqb (Tool.name t) tool_name) tools with
  | Some t => Tool.func t query
  | None => ret (unknown_tool P tool_name)
  end.

(** Modelled from the spec: the framework's agent loop, one model
    request per turn of the exchange and tool calls in between. *)
Fixpoint run_agent (a : Agent.t) (r : AgentRun) : M string :=
  emit (EvNet (ChatCompletion (Agent.role a))) ;;;
  match r with
  | Answer output => ret output
  | Crash e => raise e
  | Act tool_name query k =>
      observation <- call_tool (Agent.tools a) tool_name query ;;
      run_agent a (k observation)
  end.

(** Modelled from the spec: the request carries role, goal, persona,
    instruction and context text. *)
Definition prompt_of (task : Task.t) (context : string) : Prompt :=
  let a := Task.agent task in
  {| prompt_role := Agent.role a;
     prompt_goal := Agent.goal a;
     prompt_backstory := Agent.backstory a;
     prompt_tools :=
       map (fun t => (Tool.name t, Tool.description t)) (Agent.tools a);
     prompt_instruction := Task.description task;
     prompt_context := context |}.

(** Modelled from the spec: the framework's task execution; a failure
    in it is not caught. *)
Definition execute (task : Task.t) (context : string) : M string :=
  let a := Task.agent task in
  emit (EvTaskStart (Agent.role a) context) ;;;
  output <- run_agent a (chat P (Agent.llm a) (prompt_of task context)) ;;
  emit (EvTaskEnd (Agent.role a) output) ;;;
  ret output.

(** Modelled from the spec: the framework's accumulating record of a
    run, each task with its output. *)
Definition RunContext : Type := list (Task.t * string).

(** Modelled from the spec: the context a task receives, the
    concatenation of all prior outputs. *)
Definition concat_outputs (ctx : RunContext) : string :=
  foldr (fun p acc => snd p +:+ acc) "" ctx.

(** Modelled from the spec: the framework's sequential process; step
    i+1 starts only after step i has completed and its output has been
    appended to the run context. *)
Fixpoint run_tasks (tasks : list Task.t) (ctx : RunContext)
  : M RunContext :=
  match tasks with
  | [] => ret ctx
  | task :: rest =>
      output <- execute task (concat_outputs ctx) ;;
      run_tasks rest (ctx ++ [(task, output)])
  end.

(** Modelled from the spec: the deliverable is the text of the final
    task's result. *)
Definition final_output (ctx : RunContext) : string :=
  match last ctx with
  | Some (_, output) => output
  | None => ""
  end.

(** Modelled from the spec: [Crew.kickoff] of the framework. *)
Definition kickoff (crew : Crew.t) : M string :=
  match Crew.process crew with
  | sequential =>
      ctx <- run_tasks (Crew.tasks crew) [] ;;
      ret (final_output ctx)
  end.
End Framework.

(** ** class AIProposalSystem *)
Module AIProposalSystem.
Record t : Type := {
  llm : ChatOpenAI.t;
  tools : Tools.t;
  agent_factory : AgentFactory.t
}.

Section WithProviders.
Context (P : Providers).

Definition __init__ : M t :=
  emit (EvCall "AIProposalSystem") ;;;
  key <- getenv "OPENAI_API_KEY" ;;
  emit (EvCall "ChatOpenAI") ;;;
  llm <- match chat_openai_error P key with
         | Some e => raise e
         | None => ret {| ChatOpenAI.temperature := "0.7";
                          ChatOpenAI.model := "gpt-4-turbo-preview";
                          ChatOpenAI.openai_api_key := key |}
         end ;;
  tools <- Tools.__init__ P ;;
  ret {| llm := llm; tools := tools;
         agent_factory := AgentFactory.__init__ llm tools |}.

(** The agents, the tasks and the crew [generate_proposal] builds. *)
Definition crew_of (self : t) (company_name : string) : Crew.t :=
  (* Create agents *)
  let research_agent :=
    AgentFactory.create_research_agent P (agent_factory self) in
  let market_agent :=
    AgentFactory.create_market_standards_agent P (agent_factory self) in
  let resource_agent :=
    AgentFactory.create_resource_agent P (agent_factory self) in
  let proposal_agent :=
    AgentFactory.create_proposal_agent (agent_factory self) in
  (* Create tasks *)
  let research_task :=
    TaskFactory.create_research_task research_agent company_name in
  let market_task :=
    TaskFactory.create_market_task market_agent company_name in
  let resource_task := TaskFactory.create_resource_task resource_agent in
  let proposal_task := TaskFactory.create_proposal_task proposal_agent in
  {| Crew.agents :=
       [research_agent; market_agent; resource_agent; proposal_agent];
     Crew.tasks :=
       [research_task; market_task; resource_task; proposal_task];
     Crew.process := sequential;
     Crew.verbose := true |}.

(** [f"ai_proposal_{company_name}_{timestamp}.md"] *)
Definition filename_of (company_name timestamp : string) : string :=
  "ai_proposal_" +:+ company_name +:+ "_" +:+ timestamp +:+ ".md".

Definition generate_proposal (self : t) (company_name : string)
  : M string :=
  emit (EvCall "AIProposalSystem.generate_proposal") ;;;
  (* Create and execute crew *)
  let crew := crew_of self company_name in
  result <- kickoff P crew ;;
  (* Save proposal *)
  now <- datetime_now P ;;
  let timestamp := strftime now in
  let filename := filename_of company_name timestamp in
  write_file P filename result ;;;
  ret filename.
End WithProviders.
End AIProposalSystem.

(** ** The Streamlit script *)

(** What the user has put into the form when the script runs. *)
Record Session : Type := {
  openai_key_field : string;
  tavily_key_field : string;
  kaggle_key_field : string;
  company_name_field : string;
  button_clicked : bool
}.

(** [st.text_input(label, ...)]: renders the field, returns its text. *)
Definition st_text_input (label kind : string) (placeholder : option string)
  (value : string) : M string :=
  st (text_input label kind placeholder) ;;; ret value.

(** [st.button(label, disabled=d)]: renders the button and tells whether
    it was clicked.  Streamlit does not deliver clicks on a disabled
    button, so the call returns [False] whatever the user does. *)
Definition st_button (label : string) (disabled clicked : bool) : M bool :=
  st (button label disabled) ;;; ret (clicked && negb disabled).

Definition sidebar_steps : string :=
  "
        ### Process Steps:
        1. 🔍 Industry & Company Research
        2. 📊 Market Standards Analysis
        3. 🗄️ Resource Collection
        4. 📑 Proposal Generation
        ".

Definition resource_summary : string :=
  "
            - 🗃️ Datasets Found
            - 💻 Code Repositories
            - 📚 Research Papers
            - 🔧 Implementation Guides
            ".

Definition stages : list string :=
  [ "Researching company and industry...";
    "Analyzing AI/ML opportunities...";
    "Collecting resources and datasets...";
    "Generating comprehensive proposal..." ].

Section Script.
Context (P : Providers).

(** The [with col2:] block and the footer.  [proposal_content] is the
    local of that name, present once the proposal has been read back. *)
Definition render_metrics (proposal_content : option string) : M unit :=
  st (markdown "### Analysis Metrics") ;;;
  match proposal_content with
  | Some _ =>
      (* Display metrics *)
      st (metric "Use Cases Generated" "5") ;;;
      st (metric "Resources Found" "15") ;;;
      st (metric "Completion Time" "2 min") ;;;
      (* Display resource summary *)
      st (markdown "### Resource Summary") ;;;
      st (markdown resource_summary)
  | None => ret tt
  end ;;;
  st (markdown "---") ;;;
  st (markdown
        "Built with CrewAI | Powered by OpenAI, Tavily, and HuggingFace").

(** The body of the [try] in the button handler. *)
Definition run_and_display (system : AIProposalSystem.t)
  (company_name : string) : M (option string) :=
  (* Progress tracking *)
  st (progress 0) ;;;
  st empty ;;;
  for_each (enumerate stages)
    (fun '(i, stage) =>
       st (status_text stage) ;;;
       st (progress ((i + 1) * 25))) ;;;
  (* Generate proposal *)
  proposal_file <- AIProposalSystem.generate_proposal P system company_name ;;
  (* Display proposal *)
  proposal_content <- read_file proposal_file ;;
  st (markdown "### Generated AI/ML Proposal") ;;;
  st (markdown proposal_content) ;;;
  (* Download option *)
  st (download_button "Download Proposal" proposal_content proposal_file
        "text/markdown") ;;;
  ret (Some proposal_content).

(** The [except Exception as e:] block of the handler. *)
Definition report_failure (e : exn) : M (option string) :=
  st (error ("An error occurred: " +:+ str e)) ;;;
  st (error "Please check your API keys and try again") ;;;
  ret None.

Definition main (s : Session) : M unit :=
  st (set_page_config "AI/ML Use Case Generator" "wide" "expanded") ;;;
  st (title "Enterprise AI/ML Use Case Generator") ;;;
  (* Sidebar configuration *)
  st (header "Configuration") ;;;
  (* API key inputs *)
  openai_key <-
    st_text_input "OpenAI API Key" "password" None (openai_key_field s) ;;
  tavily_key <-
    st_text_input "Tavily API Key" "password" None (tavily_key_field s) ;;
  kaggle_key <-
    st_text_input "Kaggle API Key" "password" None (kaggle_key_field s) ;;
  api_keys_valid <-
    (if negb (all [openai_key; tavily_key; kaggle_key])
     then st (warning "Please provide all required API keys") ;;; ret false
     else ret true) ;;
  st (markdown sidebar_steps) ;;;
  (* Main content *)
  st (columns [2; 1]) ;;;
  company_name <-
    st_text_input "Enter Company Name" "default"
      (Some "e.g., Tesla, Amazon, etc.") (company_name_field s) ;;
  pressed <-
    st_button "Generate Proposal" (negb api_keys_valid) (button_clicked s) ;;
  if pressed then
    if negb (truthy company_name) then
      st (error "Please enter a company name") ;;;
      ret tt
    else
      (* Set environment variables *)
      setenv "OPENAI_API_KEY" openai_key ;;;
      setenv "TAVILY_API_KEY" tavily_key ;;;
      setenv "KAGGLE_API_TOKEN" kaggle_key ;;;
      system <- AIProposalSystem.__init__ P ;;
      st (spinner "Generating AI/ML proposal...") ;;;
      proposal_content <-
        try_except
          (run_and_display system company_name)
          report_failure ;;
      render_metrics proposal_content
  else
    render_metrics None.
End Script.

(** ** Observations on traces and worlds *)

(** The world [w] after the events [d] and nothing else. *)
Definition logged (w : World) (d : list Event) : World :=
  {| environ := environ w; files := files w; trace := trace w ++ d |}.

Definition is_ui (ev : Event) : Prop :=
  match ev with EvUI _ => True | _ => False end.

Definition is_net (ev : Event) : Prop :=
  match ev with EvNet _ => True | _ => False end.

(** Events of the pipeline proper: requests and task boundaries. *)
Definition is_pipeline (ev : Event) : Prop :=
  match ev with
  | EvNet _ | EvTaskStart _ _ | EvTaskEnd _ _ => True
  | _ => False
  end.

(** Progress-bar and stage-label updates. *)
Definition is_progress_update (ev : Event) : Prop :=
  match ev with
  | EvUI (progress _) | EvUI (status_text _) => True
  | _ => False
  end.

(** The task boundaries of a trace, requests and the rest left out. *)
Fixpoint task_events (d : list Event) : list Event :=
  match d with
  | [] => []
  | EvTaskStart r c :: rest => EvTaskStart r c :: task_events rest
  | EvTaskEnd r o :: rest => EvTaskEnd r o :: task_events rest
  | _ :: rest => task_events rest
  end.

(** The outputs recorded in a trace, in the order they were produced. *)
Fixpoint outputs_in (d : list Event) : list string :=
  match d with
  | [] => []
  | EvTaskEnd _ o :: rest => o :: outputs_in rest
  | _ :: rest => outputs_in rest
  end.

Definition concat_strings (l : list string) : string :=
  foldr String.append "" l.

(** Who started and who finished, contexts and outputs forgotten. *)
Inductive Mark : Type :=
| Started (role : string)
| Finished (role : string).

Fixpoint marks (d : list Event) : list Mark :=
  match d with
  | [] => []
  | EvTaskStart r _ :: rest => Started r :: marks rest
  | EvTaskEnd r _ :: rest => Finished r :: marks rest
  | _ :: rest => marks rest
  end.

(** The task boundaries of a sequential run of [tasks] that starts with
    the text [seen] behind it and in which the tasks produce [outs];
    when [outs] runs out first, the next task started and did not
    finish. *)
Fixpoint sequential_events (tasks : list Task.t) (seen : string)
  (outs : list string) : list Event :=
  match tasks with
  | [] => []
  | task :: rest =>
      let role := Agent.role (Task.agent task) in
      match outs with
      | [] => [EvTaskStart role seen]
      | o :: outs' =>
          EvTaskStart role seen :: EvTaskEnd role o
            :: sequential_events rest (seen +:+ o) outs'
      end
  end.

(** Every task in [d] is started with exactly the text produced so
    far: [seen] at the outset, extended by each output on the way. *)
Fixpoint contexts_from (seen : string) (d : list Event) : Prop :=
  match d with
  | [] => True
  | EvTaskStart _ c :: rest => c = seen /\ contexts_from seen rest
  | EvTaskEnd _ o :: rest => contexts_from (seen +:+ o) rest
  | _ :: rest => contexts_from seen rest
  end.

Definition research_role : string := "Industry Research Specialist".
Definition market_role : string := "AI/ML Strategy Consultant".
Definition resource_role : string := "Technical Resource Specialist".
Definition proposal_role : string := "AI Solution Architect".

Definition stage_roles : list string :=
  [research_role; market_role; resource_role; proposal_role].

(** The order research, market analysis, resource discovery, proposal. *)
Definition stage_order : list Mark :=
  [ Started research_role; Finished research_role;
    Started market_role; Finished market_role;
    Started resource_role; Finished resource_role;
    Started proposal_role; Finished proposal_role ].

(** The eight updates the handler issues: label, then 25, 50, 75, 100. *)
Definition progress_updates : list Event :=
  [ EvUI (status_text "Researching company and industry...");
    EvUI (progress 25);
    EvUI (status_text "Analyzing AI/ML opportunities...");
    EvUI (progress 50);
    EvUI (status_text "Collecting resources and datasets...");
    EvUI (progress 75);
    EvUI (status_text "Generating comprehensive proposal...");
    EvUI (progress 100) ].

Definition generate_call : Event :=
  EvCall "AIProposalSystem.generate_proposal".

(** What the script renders before it acts on the button: the page, the
    sidebar with the three key fields (and the warning when a key is
    missing), the company field and the button, disabled or not. *)
Definition form_events (api_keys_valid : bool) : list Event :=
  [ EvUI (set_page_config "AI/ML Use Case Generator" "wide" "expanded");
    EvUI (title "Enterprise AI/ML Use Case Generator");
    EvUI (header "Configuration");
    EvUI (text_input "OpenAI API Key" "password" None);
    EvUI (text_input "Tavily API Key" "password" None);
    EvUI (text_input "Kaggle API Key" "password" None) ]
  ++ (if api_keys_valid then []
      else [EvUI (warning "Please provide all required API keys")])
  ++ [ EvUI (markdown sidebar_steps);
       EvUI (columns [2; 1]);
       EvUI (text_input "Enter Company Name" "default"
               (Some "e.g., Tesla, Amazon, etc."));
       EvUI (button "Generate Proposal" (negb api_keys_valid)) ].

(** What the script renders after the button when nothing was generated. *)
Definition idle_footer : list Event :=
  [ EvUI (markdown "### Analysis Metrics");
    EvUI (markdown "---");
    EvUI (markdown
            "Built with CrewAI | Powered by OpenAI, Tavily, and HuggingFace") ].

(** Entries into constructors, as opposed to the pipeline's entry. *)
Definition is_setup_call (ev : Event) : Prop :=
  match ev with
  | EvCall callee => callee <> "AIProposalSystem.generate_proposal"
  | _ => False
  end.

(** Neither the entry into [generate_proposal] nor a progress update. *)
Definition quiet_after (ev : Event) : Prop :=
  ev <> generate_call /\ ~ is_progress_update ev.

(** [YYYYMMDD_HHMMSS]: eight digits, an underscore, six digits. *)
Definition is_digit (c : ascii) : bool :=
  (48 <=? N_of_ascii c)%N && (N_of_ascii c <=? 57)%N.

Definition is_timestamp (s : string) : bool :=
  match list_ascii_of_string s with
  | [y1; y2; y3; y4; m1; m2; d1; d2; u; h1; h2; n1; n2; s1; s2] =>
      forallb is_digit [y1; y2; y3; y4; m1; m2; d1; d2;
                        h1; h2; n1; n2; s1; s2]
      && Ascii.eqb u "_"
  | _ => false
  end.

(** A computation that only talks: it may add events satisfying [ok]
    to the trace and leaves environment and files alone. *)
Definition emits (ok : Event -> Prop) {A} (m : M A) : Prop :=
  forall w, exists d, snd (m w) = logged w d /\ Forall ok d.

(** A computation whose additions to the trace all satisfy [ok],
    whatever else it does. *)
Definition appends (ok : Event -> Prop) {A} (m : M A) : Prop :=
  forall w, exists d, trace (snd (m w)) = trace w ++ d /\ Forall ok d.

(** The tools of an agent do nothing but network requests. *)
Definition tools_ok (a : Agent.t) : Prop :=
  Forall (fun t => forall q, emits is_net (Tool.func t q)) (Agent.tools a).

(** GET, decode the body as JSON, serialise it again: the text a
    dataset search hands back when nothing fails on the way. *)
Definition get_json_text (P : Providers) (url : string)
  (headers : list (string * string)) : result string :=
  match http_get P url headers with
  | Raise e => Raise e
  | Ret response =>
      match response_json P response with
      | Raise e => Raise e
      | Ret body => json_dumps P body
      end
  end.

(** The same for the web search client. *)
Definition tavily_text (P : Providers) (key : option string)
  (query : string) : result string :=
  match tavily_api P key query with
  | Raise e => Raise e
  | Ret search_result => json_dumps P search_result
  end.

(** The text a tool returns: the result, or the failure put in words. *)
Definition or_error_text (prefix : string) (r : result string) : string :=
  match r with
  | Ret text => text
  | Raise e => prefix +:+ str e
  end.

(** "Error performing search: <message>" *)
Definition generic_error_form (s : string) : Prop :=
  exists message, s = "Error performing search: " +:+ message.

(** ** Stub providers for concrete runs *)

Definition noon : datetime :=
  {| year := 2024; month := 3; day := 9;
     hour := 12; minute := 0; second := 7; microsecond := 250 |}.

(** A provider set over string-valued JSON.  [search] decides the two
    search transports, [script] is the model's conduct by agent role,
    [writable] says which paths can be opened for writing; no write
    fails, the host's line separator is the line feed, and the clock
    stands at [noon]. *)
Definition stub (search : string -> result string)
  (script : string -> AgentRun) (writable : string -> bool) : Providers :=
  {| JSON := string;
     Response := string;
     tavily_api := fun _ q => search q;
     http_get := fun url _ => search url;
     response_json := fun r => Ret r;
     json_dumps := fun j => Ret j;
     chat_openai_error := fun _ => None;
     tavily_client_error := fun _ => None;
     chat := fun _ p => script (prompt_role p);
     unknown_tool := fun n => n +:+ " is not a valid tool";
     open_error := fun path =>
       if writable path then None
       else Some (Exception ("[Errno 13] Permission denied: '"
                             +:+ path +:+ "'"));
     write_error := fun _ _ => None;
     linesep := posix_linesep;
     wall_clock := fun _ => noon |}.

(** A search client that raises on every call. *)
Definition raising_search : string -> result string :=
  fun _ => Raise (Exception "connection refused").

Definition echo_search : string -> result string :=
  fun q => Ret ("[" +:+ q +:+ "]").

(** The end-to-end scenario: the four stages answer
    "R", "M", "Res", "Final Proposal Text". *)
Definition fixed_script (role : string) : AgentRun :=
  if String.eqb role research_role then Answer "R"
  else if String.eqb role market_role then Answer "M"
  else if String.eqb role resource_role then Answer "Res"
  else Answer "Final Proposal Text".

(** The abort scenario: stage 2's model call raises. *)
Definition failing_market_script (role : string) : AgentRun :=
  if String.eqb role market_role then Crash (Exception "model call failed")
  else fixed_script role.

(** A resource stage that consults both dataset tools before answering. *)
Definition searching_script (role : string) : AgentRun :=
  if String.eqb role resource_role then
    Act "Kaggle Search" "churn"
      (fun k => Act "HuggingFace Search" "churn"
         (fun h => Answer (k +:+ h)))
  else fixed_script role.

(** A proposal stage whose answer has a carriage return in it. *)
Definition carriage_return_script (role : string) : AgentRun :=
  if String.eqb role proposal_role then Answer ("a" +:+ String CR "b")
  else fixed_script role.

Definition world0 : World :=
  {| environ := ∅; files := ∅; trace := [] |}.

Definition tools0 : Tools.t :=
  {| Tools.tavily_client := {| TavilyClient.api_key := Some "tvly-key" |} |}.

Definition llm0 : ChatOpenAI.t :=
  {| ChatOpenAI.temperature := "0.7";
     ChatOpenAI.model := "gpt-4-turbo-preview";
     ChatOpenAI.openai_api_key := Some "sk-key" |}.

Definition system0 : AIProposalSystem.t :=
  {| AIProposalSystem.llm := llm0;
     AIProposalSystem.tools := tools0;
     AIProposalSystem.agent_factory := AgentFactory.__init__ llm0 tools0 |}.

(** One second after [noon]. *)
Definition just_after_noon : datetime :=
  {| year := 2024; month := 3; day := 9;
     hour := 12; minute := 0; second := 8; microsecond := 0 |}.

(** The form with the dataset key left empty, and the button clicked
    all the same. *)
Definition session_missing_key : Session :=
  {| openai_key_field := "sk-key"; tavily_key_field := "tvly-key";
     kaggle_key_field := ""; company_name_field := "Acme";
     button_clicked := true |}.

(** All keys in place, no company name. *)
Definition session_no_company : Session :=
  {| openai_key_field := "sk-key"; tavily_key_field := "tvly-key";
     kaggle_key_field := "kg-key"; company_name_field := "";
     button_clicked := true |}.

Definition session_ready : Session :=
  {| openai_key_field := "sk-key"; tavily_key_field := "tvly-key";
     kaggle_key_field := "kg-key"; company_name_field := "Acme";
     button_clicked := true |}.

(** ** The triggered run, piece by piece *)

(** [os.environ] after the handler has stored the three keys. *)
Definition keyed_environ (s : Session) (env : gmap string string)
  : gmap string string :=
  <["KAGGLE_API_TOKEN" := kaggle_key_field s]>
    (<["TAVILY_API_KEY" := tavily_key_field s]>
       (<["OPENAI_API_KEY" := openai_key_field s]> env)).

(** The world when the handler reaches [AIProposalSystem()]: the form
    has been rendered with the button enabled and the keys are stored. *)
Definition keyed_world (s : Session) (w : World) : World :=
  {| environ := keyed_environ s (environ w); files := files w;
     trace := trace w ++ form_events true |}.

(** The orchestrator the handler builds from the keys in the form. *)
Definition system_of (s : Session) : AIProposalSystem.t :=
  let llm := {| ChatOpenAI.temperature := "0.7";
                ChatOpenAI.model := "gpt-4-turbo-preview";
                ChatOpenAI.openai_api_key := Some (openai_key_field s) |} in
  let tools :=
    {| Tools.tavily_client :=
         {| TavilyClient.api_key := Some (tavily_key_field s) |} |} in
  {| AIProposalSystem.llm := llm; AIProposalSystem.tools := tools;
     AIProposalSystem.agent_factory := AgentFactory.__init__ llm tools |}.

(** Constructor entries of one [AIProposalSystem()]. *)
Definition setup_calls : list Event :=
  [EvCall "AIProposalSystem"; EvCall "ChatOpenAI"; EvCall "TavilyClient"].

(** The world in which the handler calls [generate_proposal]. *)
Definition entry_world (s : Session) (w : World) : World :=
  logged (keyed_world s w)
    (setup_calls
     ++ [EvUI (spinner "Generating AI/ML proposal...");
         EvUI (progress 0); EvUI empty]
     ++ progress_updates).

(** The two messages of the handler's [except] block. *)
Definition failure_report (e : exn) : list Event :=
  [ EvUI (error ("An error occurred: " +:+ str e));
    EvUI (error "Please check your API keys and try again") ].

(** What the handler renders once the proposal has been read back. *)
Definition proposal_display (proposal_content proposal_file : string)
  : list Event :=
  [ EvUI (markdown "### Generated AI/ML Proposal");
    EvUI (markdown proposal_content);
    EvUI (download_button "Download Proposal" proposal_content
            proposal_file "text/markdown") ].

(** The [with col2:] block and the footer after a displayed proposal. *)
Definition metrics_footer : list Event :=
  [ EvUI (markdown "### Analysis Metrics");
    EvUI (metric "Use Cases Generated" "5");
    EvUI (metric "Resources Found" "15");
    EvUI (metric "Completion Time" "2 min");
    EvUI (markdown "### Resource Summary");
    EvUI (markdown resource_summary);
    EvUI (markdown "---");
    EvUI (markdown
            "Built with CrewAI | Powered by OpenAI, Tavily, and HuggingFace") ].

(** A conduct of the model that ends in an answer on every path,
    whatever the tools return. *)
Inductive answers : AgentRun -> Prop :=
| answers_now (output : string) : answers (Answer output)
| answers_after (tool_name query : string) (k : string -> AgentRun) :
    (forall observation, answers (k observation)) ->
    answers (Act tool_name query k).

(** What may appear in the trace while the stage at index [stage] of
    the crew executes: its own boundaries, model requests, and requests
    of the tools its agent holds. *)
Definition stage_may (stage : nat) (ev : Event) : Prop :=
  match ev with
  | EvTaskStart _ _ | EvTaskEnd _ _ => True
  | EvNet (ChatCompletion _) => True
  | EvNet (TavilySearch _ _) => stage = 0 \/ stage = 1
  | EvNet (HttpGet url _) =>
      stage = 2 /\
      exists query, url = Tools.kaggle_endpoint +:+ query \/
                    url = Tools.huggingface_endpoint +:+ query
  | _ => False
  end.

(** [P] with other constructors for the two clients. *)
Definition with_constructors (P : Providers)
  (openai tavily : option string -> option exn) : Providers :=
  {| JSON := JSON P; Response := Response P;
     tavily_api := tavily_api P; http_get := http_get P;
     response_json := response_json P; json_dumps := json_dumps P;
     chat_openai_error := openai; tavily_client_error := tavily;
     chat := chat P; unknown_tool := unknown_tool P;
     open_error := open_error P; write_error := write_error P;
     linesep := linesep P; wall_clock := wall_clock P |}.

(** A constructor that rejects every key. *)
Definition rejects_key : option string -> option exn :=
  fun _ => Some (Exception "Incorrect API key provided").

Definition accepts_key : option string -> option exn := fun _ => None.

(** The form filled in and the button left alone. *)
Definition session_idle : Session :=
  {| openai_key_field := "sk-key"; tavily_key_field := "tvly-key";
     kaggle_key_field := "kg-key"; company_name_field := "Acme";
     button_clicked := false |}.

(** A computation that only talks, as long as the environment it
    starts in satisfies [env_ok]: it adds events satisfying [ok] and
    leaves environment and files alone. *)
Definition emits_under (env_ok : gmap string string -> Prop)
  (ok : Event -> Prop) {A} (m : M A) : Prop :=
  forall w, env_ok (environ w) ->
    exists d, snd (m w) = logged w d /\ Forall ok d.

(** A request that carries the keys of the form: the web search the
    search key, the Kaggle search the dataset key as bearer token, the
    HuggingFace search no header at all. *)
Definition carries_keys (s : Session) (ev : Event) : Prop :=
  match ev with
  | EvNet (TavilySearch key _) => key = Some (tavily_key_field s)
  | EvNet (HttpGet url headers) =>
      ((exists query, url = Tools.kaggle_endpoint +:+ query) /\
       headers = [("Authorization", "Bearer " +:+ kaggle_key_field s)]) \/
      ((exists query, url = Tools.huggingface_endpoint +:+ query) /\
       headers = [])
  | _ => True
  end.

(** Lexicographic combination of two comparisons. *)
Definition lex (c1 c2 : comparison) : comparison :=
  match c1 with
  | Eq => c2
  | _ => c1
  end.

(** Which of two instants comes first, to the second. *)
Definition datetime_compare (a b : datetime) : comparison :=
  lex (year a ?= year b)%N
    (lex (month a ?= month b)%N
       (lex (day a ?= day b)%N
          (lex (hour a ?= hour b)%N
             (lex (minute a ?= minute b)%N (second a ?= second b)%N)))).

(** A text without carriage returns. *)
Fixpoint cr_free (s : string) : bool :=
  match s with
  | EmptyString => true
  | String c rest => negb (Ascii.eqb c CR) && cr_free rest
  end.

(** A text without line feeds. *)
Fixpoint lf_free (s : string) : bool :=
  match s with
  | EmptyString => true
  | String c rest => negb (Ascii.eqb c LF) && lf_free rest
  end.

(** What [f.read()] gives for a file that [f.write(text)] has
    written. *)
Definition read_back (P : Providers) (text : string) : string :=
  universal_newlines (newlines_out (linesep P) text).

(** [P] on another host: how writes fail there and what its line
    separator is. *)
Definition with_host (P : Providers)
  (write : string -> string -> option (exn * string)) (sep : string)
  : Providers :=
  {| JSON := JSON P; Response := Response P;
     tavily_api := tavily_api P; http_get := http_get P;
     response_json := response_json P; json_dumps := json_dumps P;
     chat_openai_error := chat_openai_error P;
     tavily_client_error := tavily_client_error P;
     chat := chat P; unknown_tool := unknown_tool P;
     open_error := open_error P; write_error := write;
     linesep := sep; wall_clock := wall_clock P |}.

(** A write that fails on text it cannot encode: nothing reaches the
    file. *)
Definition unencodable : string -> string -> option (exn * string) :=
  fun _ _ =>
    Some (Exception "'ascii' codec can't encode character", "").

(** * Properties *)

(** ** Worlds and the monad *)

Lemma logged_nil w : logged w [] = w.
Proof. destruct w; unfold logged; simpl. by rewrite app_nil_r. Qed.

Lemma logged_logged w a b : logged (logged w a) b = logged w (a ++ b).
Proof. unfold logged; simpl. by rewrite app_assoc. Qed.

Lemma emit_logged ev w : emit ev w = (Ret tt, logged w [ev]).
Proof. reflexivity. Qed.

Lemma bind_emit {B} ev (k : unit -> M B) w :
  bind (emit ev) k w = k tt (logged w [ev]).
Proof. reflexivity. Qed.

Lemma bind_st {B} u (k : unit -> M B) w :
  bind (st u) k w = k tt (logged w [EvUI u]).
Proof. reflexivity. Qed.

Lemma bind_ret {A B} (a : A) (k : A -> M B) w : bind (ret a) k w = k a w.
Proof. reflexivity. Qed.

Lemma bind_bind {A B C} (m : M A) (f : A -> M B) (g : B -> M C) w :
  bind (bind m f) g w = bind m (fun x => bind (f x) g) w.
Proof. unfold bind. destruct (m w) as [[a|e] w1]; reflexivity. Qed.

Lemma bind_ext {A B} (m : M A) (f g : A -> M B) w :
  (forall a w', f a w' = g a w') -> bind m f w = bind m g w.
Proof.
  intros H. unfold bind. destruct (m w) as [[a|e] w1]; [apply H|reflexivity].
Qed.

(** ** The search tools *)

Section ToolFacts.
Context (P : Providers).

Lemma tavily_search_run self query w :
  Tools.tavily_search P self query w =
    (Ret (or_error_text "Error performing search: "
            (tavily_text P (TavilyClient.api_key (Tools.tavily_client self))
               query)),
     logged w [EvNet (TavilySearch
                 (TavilyClient.api_key (Tools.tavily_client self)) query)]).
Proof.
  unfold Tools.tavily_search, try_except, tavily_text.
  rewrite bind_emit. unfold bind, lift, ret.
  destruct (tavily_api P _ query) as [j|e]; [|reflexivity].
  destruct (json_dumps P j); reflexivity.
Qed.

Lemma search_kaggle_run self query w :
  let url := Tools.kaggle_endpoint +:+ query in
  let headers :=
    [("Authorization",
      "Bearer " +:+ fmt_opt (environ w !! "KAGGLE_API_TOKEN"))] in
  Tools.search_kaggle P self query w =
    (Ret (or_error_text "Error searching Kaggle: "
            (get_json_text P url headers)),
     logged w [EvNet (HttpGet url headers)]).
Proof.
  intros url headers.
  unfold Tools.search_kaggle, try_except, get_json_text.
  unfold bind at 1. unfold getenv at 1. rewrite bind_emit.
  unfold bind, lift, ret. fold url. fold headers.
  destruct (http_get P url headers) as [r|e]; [|reflexivity].
  destruct (response_json P r) as [j|e]; [|reflexivity].
  destruct (json_dumps P j); reflexivity.
Qed.

Lemma search_huggingface_run self query w :
  let url := Tools.huggingface_endpoint +:+ query in
  Tools.search_huggingface P self query w =
    (Ret (or_error_text "Error searching HuggingFace: "
            (get_json_text P url [])),
     logged w [EvNet (HttpGet url [])]).
Proof.
  intros url.
  unfold Tools.search_huggingface, try_except, get_json_text.
  rewrite bind_emit. unfold bind, lift, ret. fold url.
  destruct (http_get P url []) as [r|e]; [|reflexivity].
  destruct (response_json P r) as [j|e]; [|reflexivity].
  destruct (json_dumps P j); reflexivity.
Qed.
End ToolFacts.

(** C1 (amended).  None of the three search operations raises: each
    returns a string whatever the client, the transport, the decoding
    or the serialisation does.  On a failure with exception [e] the web
    search returns "Error performing search: " followed by [str e]; the
    Kaggle search returns "Error searching Kaggle: " followed by [str e];
    the HuggingFace search returns "Error searching HuggingFace: "
    followed by [str e]. *)
Theorem search_tools_never_raise (P : Providers) (self : Tools.t)
  (query : string) (w : World) :
  (exists w',
     Tools.tavily_search P self query w =
       (Ret (or_error_text "Error performing search: "
               (tavily_text P
                  (TavilyClient.api_key (Tools.tavily_client self)) query)),
        w')) /\
  (exists w',
     Tools.search_kaggle P self query w =
       (Ret (or_error_text "Error searching Kaggle: "
               (get_json_text P (Tools.kaggle_endpoint +:+ query)
                  [("Authorization",
                    "Bearer " +:+ fmt_opt (environ w !! "KAGGLE_API_TOKEN"))])),
        w')) /\
  (exists w',
     Tools.search_huggingface P self query w =
       (Ret (or_error_text "Error searching HuggingFace: "
               (get_json_text P (Tools.huggingface_endpoint +:+ query) [])),
        w')).
Proof.
  split; [|split]; eexists.
  - apply tavily_search_run.
  - apply search_kaggle_run.
  - apply search_huggingface_run.
Qed.

(** With a client that raises "connection refused" on every call, the
    Kaggle search returns a string, and that string is not of the form
    "Error performing search: <message>" for any message; neither is
    the one the HuggingFace search returns. *)
Lemma dataset_search_error_text_differs :
  let P := stub raising_search fixed_script (fun _ => true) in
  fst (Tools.search_kaggle P tools0 "iris" world0)
    = Ret "Error searching Kaggle: connection refused" /\
  ~ generic_error_form "Error searching Kaggle: connection refused" /\
  fst (Tools.search_huggingface P tools0 "iris" world0)
    = Ret "Error searching HuggingFace: connection refused" /\
  ~ generic_error_form "Error searching HuggingFace: connection refused".
Proof.
  repeat split; try reflexivity.
  - intros [message H]. simpl in H. discriminate H.
  - intros [message H]. simpl in H. discriminate H.
Qed.

(** The web search is the one operation whose failure text has the
    generic form. *)
Lemma tavily_search_error_form (P : Providers) (self : Tools.t)
  (query : string) (w : World) (e : exn) :
  tavily_text P (TavilyClient.api_key (Tools.tavily_client self)) query
    = Raise e ->
  exists s w', Tools.tavily_search P self query w = (Ret s, w') /\
               generic_error_form s.
Proof.
  intros H. rewrite tavily_search_run, H. simpl.
  eexists _, _. split; [reflexivity|]. by exists (str e).
Qed.

(** C9.  Both dataset searches send a GET whose URL is the endpoint
    followed by the query exactly as given: nothing is escaped, so a
    query with spaces, '&' or '#' appears as such in the URL. *)
Theorem dataset_urls_interpolate_query (P : Providers) (self : Tools.t)
  (query : string) (w : World) :
  (exists r,
     Tools.search_kaggle P self query w =
       (r, logged w
             [EvNet (HttpGet
                ("https://www.kaggle.com/api/v1/search/datasets?search="
                 +:+ query)
                [("Authorization",
                  "Bearer "
                  +:+ fmt_opt (environ w !! "KAGGLE_API_TOKEN"))])])) /\
  (exists r,
     Tools.search_huggingface P self query w =
       (r, logged w
             [EvNet (HttpGet
                ("https://huggingface.co/api/datasets?search=" +:+ query)
                [])])).
Proof.
  split; eexists.
  - apply search_kaggle_run.
  - apply search_huggingface_run.
Qed.

(** A query with URL-significant characters goes out unescaped. *)
Example search_kaggle_url_significant :
  trace (snd (Tools.search_kaggle
                (stub echo_search fixed_script (fun _ => true))
                tools0 "a&b #c" world0))
  = [EvNet (HttpGet
       "https://www.kaggle.com/api/v1/search/datasets?search=a&b #c"
       [("Authorization", "Bearer None")])].
Proof. reflexivity. Qed.

(** ** Strings *)

Lemma append_cons (c : ascii) (a b : string) :
  String c a +:+ b = String c (a +:+ b).
Proof. reflexivity. Qed.

Lemma append_length (a b : string) :
  String.length (a +:+ b) = String.length a + String.length b.
Proof.
  induction a as [|c a IH]; [reflexivity|].
  rewrite append_cons. simpl. by rewrite IH.
Qed.

Lemma append_assoc (a b c : string) : (a +:+ b) +:+ c = a +:+ (b +:+ c).
Proof.
  induction a as [|x a IH]; [reflexivity|].
  rewrite !append_cons. by rewrite IH.
Qed.

Lemma append_nil_r (a : string) : a +:+ "" = a.
Proof.
  induction a as [|x a IH]; [reflexivity|].
  rewrite append_cons. by rewrite IH.
Qed.

Lemma append_cancel_l (p a b : string) : p +:+ a = p +:+ b -> a = b.
Proof.
  induction p as [|c p IH]; [done|].
  rewrite !append_cons. intros H. injection H as H. by apply IH.
Qed.

(** Two splits of one string with tails of equal length are the same
    split. *)
Lemma append_split_unique (a1 a2 b1 b2 : string) :
  a1 +:+ b1 = a2 +:+ b2 ->
  String.length b1 = String.length b2 ->
  a1 = a2 /\ b1 = b2.
Proof.
  revert a2. induction a1 as [|c a1 IH]; intros [|c2 a2] H L.
  - done.
  - change ("" +:+ b1) with b1 in H. subst b1.
    rewrite append_length in L. simpl in L. lia.
  - change ("" +:+ b2) with b2 in H. subst b2.
    rewrite append_length in L. simpl in L. lia.
  - rewrite !append_cons in H. injection H as -> H.
    destruct (IH _ H L) as [-> ->]. done.
Qed.

(** ** Line ends *)

Lemma newlines_out_posix (s : string) : newlines_out posix_linesep s = s.
Proof.
  induction s as [|c s IH]; [reflexivity|]. cbn [newlines_out].
  rewrite IH. destruct (Ascii.eqb_spec c LF) as [->|_]; reflexivity.
Qed.

Lemma newlines_out_lf_free (linesep s : string) :
  lf_free s = true -> newlines_out linesep s = s.
Proof.
  induction s as [|c s IH]; [reflexivity|]. cbn [lf_free newlines_out].
  intros [Hc Hs]%andb_true_iff.
  destruct (Ascii.eqb c LF); [discriminate Hc|]. by rewrite IH.
Qed.

Lemma universal_newlines_cr_free (s : string) :
  cr_free s = true -> universal_newlines s = s.
Proof.
  induction s as [|c s IH]; [reflexivity|]. cbn [cr_free universal_newlines].
  intros [Hc Hs]%andb_true_iff.
  destruct (Ascii.eqb c CR); [discriminate Hc|]. by rewrite IH.
Qed.

(** Whatever is stored, what is read has no carriage return left. *)
Lemma universal_newlines_no_cr (s : string) :
  cr_free (universal_newlines s) = true.
Proof.
  enough (cr_free (universal_newlines s) = true /\
          forall c, cr_free (universal_newlines (String c s)) = true)
    as [H _] by exact H.
  induction s as [|a s [IH1 IH2]].
  - split; [reflexivity|]. intros c. cbn [universal_newlines].
    destruct (Ascii.eqb c CR) eqn:Hc; cbn [cr_free]; [reflexivity|].
    by rewrite Hc.
  - split; [apply IH2|]. intros c.
    change (universal_newlines (String c (String a s)))
      with (if Ascii.eqb c CR then
              if Ascii.eqb a LF then String LF (universal_newlines s)
              else String LF (universal_newlines (String a s))
            else String c (universal_newlines (String a s))).
    destruct (Ascii.eqb c CR) eqn:Hc; [destruct (Ascii.eqb a LF)|];
      cbn [cr_free].
    + exact IH1.
    + apply IH2.
    + rewrite Hc. apply IH2.
Qed.

(** A text without carriage returns reads back as it was written, on
    either kind of host. *)
Lemma read_back_cr_free (P : Providers) (s : string) :
  linesep P = posix_linesep \/ linesep P = windows_linesep ->
  cr_free s = true -> read_back P s = s.
Proof.
  unfold read_back. intros [->| ->] Hs.
  - rewrite newlines_out_posix. by apply universal_newlines_cr_free.
  - induction s as [|c s IH]; [reflexivity|].
    cbn [cr_free] in Hs. apply andb_true_iff in Hs as [Hc Hs].
    cbn [newlines_out].
    destruct (Ascii.eqb_spec c LF) as [->|Hlf].
    + change (windows_linesep +:+ newlines_out windows_linesep s)
        with (String CR (String LF (newlines_out windows_linesep s))).
      cbn [universal_newlines]. change (Ascii.eqb CR CR) with true.
      change (Ascii.eqb LF LF) with true. cbv iota. by rewrite IH.
    + cbn [universal_newlines].
      destruct (Ascii.eqb c CR); [discriminate Hc|]. by rewrite IH.
Qed.

(** ** Timestamps *)

Lemma digit_code (k : N) :
  (k < 10)%N -> N_of_ascii (ascii_of_N (48 + k)) = (48 + k)%N.
Proof. intros H. apply N_ascii_embedding. lia. Qed.

Lemma digit_is_digit (n : N) : is_digit (digit n) = true.
Proof.
  unfold digit, is_digit.
  assert (n mod 10 < 10)%N as H by (apply N.mod_lt; lia).
  rewrite digit_code by exact H.
  revert H. generalize (n mod 10)%N. intros k H.
  rewrite andb_true_iff, !N.leb_le. lia.
Qed.

Lemma digit_inj (a b : N) : digit a = digit b -> (a mod 10 = b mod 10)%N.
Proof.
  unfold digit. intros H.
  assert (a mod 10 < 10)%N as Ha by (apply N.mod_lt; lia).
  assert (b mod 10 < 10)%N as Hb by (apply N.mod_lt; lia).
  apply (f_equal N_of_ascii) in H.
  rewrite !digit_code in H by assumption.
  revert H. generalize (a mod 10)%N (b mod 10)%N. intros. lia.
Qed.

Lemma div10_mod10_eq (a b : N) :
  (a / 10 = b / 10 -> a mod 10 = b mod 10 -> a = b)%N.
Proof.
  intros H1 H2.
  rewrite (N.div_mod a 10), (N.div_mod b 10) by lia.
  by rewrite H1, H2.
Qed.

Lemma pad2_inj (n m : N) : (n < 100 -> m < 100 -> pad2 n = pad2 m -> n = m)%N.
Proof.
  intros Hn Hm H. unfold pad2 in H. injection H as H1 H0.
  apply digit_inj in H1, H0.
  apply div10_mod10_eq; [|done].
  rewrite !N.mod_small in H1; [done| |];
    apply N.Div0.div_lt_upper_bound; lia.
Qed.

Lemma pad4_inj (n m : N) :
  (n < 10000 -> m < 10000 -> pad4 n = pad4 m -> n = m)%N.
Proof.
  intros Hn Hm H. unfold pad4, pad2 in H. injection H as H3 H2 H1 H0.
  apply digit_inj in H3, H2, H1, H0.
  replace (n / 1000)%N with (n / 10 / 10 / 10)%N in H3
    by (rewrite !N.Div0.div_div; reflexivity).
  replace (m / 1000)%N with (m / 10 / 10 / 10)%N in H3
    by (rewrite !N.Div0.div_div; reflexivity).
  replace (n / 100)%N with (n / 10 / 10)%N in H2
    by (rewrite !N.Div0.div_div; reflexivity).
  replace (m / 100)%N with (m / 10 / 10)%N in H2
    by (rewrite !N.Div0.div_div; reflexivity).
  rewrite !N.mod_small in H3;
    [| rewrite !N.Div0.div_div; apply N.Div0.div_lt_upper_bound; lia
     | rewrite !N.Div0.div_div; apply N.Div0.div_lt_upper_bound; lia ].
  apply div10_mod10_eq; [|done].
  apply div10_mod10_eq; [|done].
  apply div10_mod10_eq; done.
Qed.

Lemma strftime_length (d : datetime) : String.length (strftime d) = 15.
Proof. reflexivity. Qed.

(** The timestamp always has the shape YYYYMMDD_HHMMSS. *)
Lemma strftime_is_timestamp (d : datetime) : is_timestamp (strftime d) = true.
Proof.
  cbv [strftime pad4 pad2 String.append is_timestamp list_ascii_of_string
       forallb].
  rewrite !digit_is_digit. reflexivity.
Qed.

(** On valid instants the timestamp determines the second. *)
Lemma strftime_inj (t1 t2 : datetime) :
  valid_datetime t1 -> valid_datetime t2 ->
  strftime t1 = strftime t2 -> to_second t1 = to_second t2.
Proof.
  intros (Hy1 & Hm1 & Hd1 & Hh1 & Hn1 & Hs1 & _)
         (Hy2 & Hm2 & Hd2 & Hh2 & Hn2 & Hs2 & _) H.
  destruct t1 as [y1 m1 d1 h1 n1 s1 u1], t2 as [y2 m2 d2 h2 n2 s2 u2].
  simpl in *. unfold strftime in H. simpl in H.
  assert (pad4 y1 = pad4 y2 /\ pad2 m1 = pad2 m2 /\ pad2 d1 = pad2 d2 /\
          pad2 h1 = pad2 h2 /\ pad2 n1 = pad2 n2 /\ pad2 s1 = pad2 s2)
    as (Ey & Em & Ed & Eh & En & Es).
  { unfold pad4, pad2 in *. simpl in H.
    injection H as -> -> -> -> -> -> -> -> -> -> -> -> -> ->. done. }
  apply pad4_inj in Ey; [|lia..].
  apply pad2_inj in Em, Ed, Eh, En, Es; [|lia..].
  unfold to_second; simpl. by subst.
Qed.

(** C6.  The file name determines the company and the second: runs for
    one company saved in different seconds get different paths, and
    runs saved in the same second for different companies get different
    paths. *)
Theorem filename_injective (c1 c2 : string) (t1 t2 : datetime) :
  valid_datetime t1 -> valid_datetime t2 ->
  let f1 := AIProposalSystem.filename_of c1 (strftime t1) in
  let f2 := AIProposalSystem.filename_of c2 (strftime t2) in
  (f1 = f2 -> c1 = c2 /\ to_second t1 = to_second t2) /\
  (c1 = c2 -> to_second t1 <> to_second t2 -> f1 <> f2) /\
  (to_second t1 = to_second t2 -> c1 <> c2 -> f1 <> f2).
Proof.
  intros V1 V2 f1 f2.
  assert (f1 = f2 -> c1 = c2 /\ to_second t1 = to_second t2) as Inj.
  { unfold f1, f2, AIProposalSystem.filename_of. intros H.
    apply append_cancel_l in H.
    apply append_split_unique in H as [Hc Ht].
    - split; [exact Hc|].
      apply append_cancel_l in Ht.
      apply append_split_unique in Ht as [Ht _]; [|reflexivity].
      by apply strftime_inj.
    - rewrite !append_length, !strftime_length. reflexivity. }
  split; [exact Inj|]. split.
  - intros _ Ht Hf. apply Ht. by apply Inj.
  - intros _ Hc Hf. apply Hc. by apply Inj.
Qed.

Lemma noon_valid : valid_datetime noon.
Proof. unfold valid_datetime; simpl. lia. Defined.

Lemma just_after_noon_valid : valid_datetime just_after_noon.
Proof. unfold valid_datetime; simpl. lia. Defined.

Lemma filename_injective_witness :
  AIProposalSystem.filename_of "Acme" (strftime noon)
    <> AIProposalSystem.filename_of "Acme" (strftime just_after_noon) /\
  AIProposalSystem.filename_of "Acme" (strftime noon)
    <> AIProposalSystem.filename_of "Apex" (strftime noon).
Proof.
  split.
  - destruct (filename_injective "Acme" "Acme" noon just_after_noon
                noon_valid just_after_noon_valid) as (_ & H & _).
    apply H; [reflexivity|]. unfold to_second; simpl. discriminate.
  - destruct (filename_injective "Acme" "Apex" noon noon
                noon_valid noon_valid) as (_ & _ & H).
    apply H; [reflexivity|]. discriminate.
Defined.

(** ** Computations that only add to the trace *)

Section Emits.
Context (ok : Event -> Prop).

Lemma emits_ret {A} (a : A) : emits ok (ret a).
Proof. intros w. exists []. simpl. by rewrite logged_nil. Qed.

Lemma emits_raise {A} (e : exn) : emits ok (@raise A e).
Proof. intros w. exists []. simpl. by rewrite logged_nil. Qed.

Lemma emits_lift {A} (r : result A) : emits ok (lift r).
Proof. intros w. exists []. simpl. by rewrite logged_nil. Qed.

Lemma emits_getenv (k : string) : emits ok (getenv k).
Proof. intros w. exists []. simpl. by rewrite logged_nil. Qed.

Lemma emits_emit (ev : Event) : ok ev -> emits ok (emit ev).
Proof. intros H w. exists [ev]. split; [reflexivity|]. by constructor. Qed.

Lemma emits_bind {A B} (m : M A) (k : A -> M B) :
  emits ok m -> (forall a, emits ok (k a)) -> emits ok (bind m k).
Proof.
  intros Hm Hk w. destruct (Hm w) as (d1 & E1 & F1). unfold bind.
  destruct (m w) as [[a|e] w1]; simpl in E1; subst w1.
  - destruct (Hk a (logged w d1)) as (d2 & E2 & F2).
    exists (d1 ++ d2). rewrite E2, logged_logged.
    split; [reflexivity|]. by apply Forall_app.
  - by exists d1.
Qed.

Lemma emits_try_except {A} (body : M A) (handler : exn -> M A) :
  emits ok body -> (forall e, emits ok (handler e)) ->
  emits ok (try_except body handler).
Proof.
  intros Hb Hh w. destruct (Hb w) as (d1 & E1 & F1). unfold try_except.
  destruct (body w) as [[a|e] w1]; simpl in E1; subst w1.
  - by exists d1.
  - destruct (Hh e (logged w d1)) as (d2 & E2 & F2).
    exists (d1 ++ d2). rewrite E2, logged_logged.
    split; [reflexivity|]. by apply Forall_app.
Qed.
End Emits.

Lemma emits_mono (ok ok' : Event -> Prop) {A} (m : M A) :
  (forall ev, ok ev -> ok' ev) -> emits ok m -> emits ok' m.
Proof.
  intros Himp Hm w. destruct (Hm w) as (d & E & F).
  exists d. split; [exact E|]. eapply Forall_impl; eauto.
Qed.

Lemma emits_appends (ok : Event -> Prop) {A} (m : M A) :
  emits ok m -> appends ok m.
Proof.
  intros Hm w. destruct (Hm w) as (d & E & F).
  exists d. by rewrite E.
Qed.

Lemma net_is_pipeline (ev : Event) : is_net ev -> is_pipeline ev.
Proof. by destruct ev. Qed.

(** ** Traces of task boundaries *)

Lemma task_events_app (a b : list Event) :
  task_events (a ++ b) = task_events a ++ task_events b.
Proof.
  induction a as [|ev a IH]; [reflexivity|].
  destruct ev; simpl; by rewrite ?IH.
Qed.

Lemma task_events_net (d : list Event) : Forall is_net d -> task_events d = [].
Proof.
  induction 1 as [|ev d Hev _ IH]; [reflexivity|].
  by destruct ev.
Qed.

Lemma marks_task_events (d : list Event) : marks (task_events d) = marks d.
Proof.
  induction d as [|ev d IH]; [reflexivity|].
  destruct ev; simpl; by rewrite ?IH.
Qed.

Lemma marks_app (a b : list Event) : marks (a ++ b) = marks a ++ marks b.
Proof.
  induction a as [|ev a IH]; [reflexivity|].
  destruct ev; simpl; by rewrite ?IH.
Qed.

Lemma outputs_in_task_events (d : list Event) :
  outputs_in (task_events d) = outputs_in d.
Proof.
  induction d as [|ev d IH]; [reflexivity|].
  destruct ev; simpl; by rewrite ?IH.
Qed.

Lemma contexts_from_task_events (seen : string) (d : list Event) :
  contexts_from seen (task_events d) <-> contexts_from seen d.
Proof.
  revert seen. induction d as [|ev d IH]; intros seen; [reflexivity|].
  destruct ev; simpl; rewrite ?IH; reflexivity.
Qed.

Lemma contexts_from_sequential (tasks : list Task.t) (seen : string)
  (outs : list string) :
  contexts_from seen (sequential_events tasks seen outs).
Proof.
  revert seen outs. induction tasks as [|task tasks IH]; intros seen outs.
  - exact I.
  - destruct outs as [|o outs]; simpl; [done|].
    split; [reflexivity|]. apply IH.
Qed.

Lemma outputs_in_sequential (tasks : list Task.t) (seen : string)
  (outs : list string) :
  outputs_in (sequential_events tasks seen outs) = take (length tasks) outs.
Proof.
  revert seen outs. induction tasks as [|task tasks IH]; intros seen outs.
  - reflexivity.
  - destruct outs as [|o outs]; simpl; [reflexivity|]. by rewrite IH.
Qed.

(** What [contexts_from] says about any one task start. *)
Lemma contexts_from_split (seen : string) (d pre post : list Event)
  (role c : string) :
  contexts_from seen d ->
  d = pre ++ EvTaskStart role c :: post ->
  c = seen +:+ concat_strings (outputs_in pre).
Proof.
  revert seen d. induction pre as [|ev pre IH]; intros seen d H ->.
  - simpl in H. destruct H as [-> _]. simpl. by rewrite append_nil_r.
  - destruct ev; simpl in H |- *; try (eapply IH; [exact H|reflexivity]).
    + destruct H as [_ H]. eapply IH; [exact H|reflexivity].
    + rewrite <- append_assoc. eapply IH; [exact H|reflexivity].
Qed.

Lemma concat_outputs_snoc (ctx : RunContext) (task : Task.t) (o : string) :
  concat_outputs (ctx ++ [(task, o)]) = concat_outputs ctx +:+ o.
Proof.
  unfold concat_outputs. induction ctx as [|p ctx IH]; simpl.
  - by rewrite append_nil_r.
  - by rewrite IH, append_assoc.
Qed.

(** ** Task execution and the sequential run *)

Section FrameworkFacts.
Context (P : Providers).

Lemma call_tool_emits (tools : list Tool.t) (tool_name query : string) :
  Forall (fun t => forall q, emits is_net (Tool.func t q)) tools ->
  emits is_net (call_tool P tools tool_name query).
Proof.
  intros Htools. unfold call_tool.
  destruct (find _ tools) as [t|] eqn:Hfind.
  - apply find_some in Hfind as [Hin _].
    rewrite Forall_forall in Htools. apply Htools.
    by apply list_elem_of_In.
  - apply emits_ret.
Qed.

Lemma run_agent_emits (a : Agent.t) (r : AgentRun) :
  tools_ok a -> emits is_net (run_agent P a r).
Proof.
  intros Ha. induction r as [output|e|tool_name query k IH]; simpl.
  - apply emits_bind; [by apply emits_emit|]. intros _. apply emits_ret.
  - apply emits_bind; [by apply emits_emit|]. intros _. apply emits_raise.
  - apply emits_bind; [by apply emits_emit|]. intros _.
    apply emits_bind; [by apply call_tool_emits|]. exact IH.
Qed.

(** One task execution: the start, requests only, and the end when
    the agent answers. *)
Lemma execute_run (task : Task.t) (context : string) (w : World) :
  tools_ok (Task.agent task) ->
  let role := Agent.role (Task.agent task) in
  exists dn, Forall is_net dn /\
    ((exists output,
        execute P task context w =
          (Ret output,
           logged w (EvTaskStart role context :: dn
                     ++ [EvTaskEnd role output]))) \/
     (exists e,
        execute P task context w =
          (Raise e, logged w (EvTaskStart role context :: dn)))).
Proof.
  intros Ha role. unfold execute. cbv zeta. rewrite bind_emit. fold role.
  set (w0 := logged w [EvTaskStart role context]).
  destruct (run_agent_emits (Task.agent task)
              (chat P (Agent.llm (Task.agent task))
                 (prompt_of task context)) Ha w0) as (dn & E & F).
  exists dn. split; [exact F|]. unfold bind.
  destruct (run_agent P _ _ w0) as [[output|e] w1]; simpl in E; subst w1.
  - left. exists output. rewrite emit_logged. unfold ret, w0.
    by rewrite !logged_logged.
  - right. exists e. unfold w0. by rewrite logged_logged.
Qed.

(** The whole run: what lands in the trace and what comes back. *)
Lemma run_tasks_run (tasks : list Task.t) :
  Forall (fun task => tools_ok (Task.agent task)) tasks ->
  forall (ctx : RunContext) (w : World),
  exists d outs,
    snd (run_tasks P tasks ctx w) = logged w d /\
    Forall is_pipeline d /\
    task_events d = sequential_events tasks (concat_outputs ctx) outs /\
    match fst (run_tasks P tasks ctx w) with
    | Ret ctx' => ctx' = ctx ++ zip tasks outs /\
                  length outs = length tasks
    | Raise _ => length outs < length tasks
    end.
Proof.
  induction 1 as [|task tasks Htask _ IH]; intros ctx w.
  - exists [], []. simpl. rewrite logged_nil, app_nil_r. done.
  - simpl. set (role := Agent.role (Task.agent task)).
    destruct (execute_run task (concat_outputs ctx) w Htask)
      as (dn & Fn & [[output E]|[e E]]); fold role in E.
    + destruct (IH (ctx ++ [(task, output)])
                  (logged w (EvTaskStart role (concat_outputs ctx) :: dn
                             ++ [EvTaskEnd role output])))
        as (d & outs & Es & Fd & Et & Hr).
      exists (EvTaskStart role (concat_outputs ctx) :: dn
              ++ [EvTaskEnd role output] ++ d), (output :: outs).
      unfold bind. rewrite E. rewrite Es, logged_logged.
      split; [simpl; by rewrite <- app_assoc|]. split.
      { constructor; [exact I|]. apply Forall_app. split.
        - eapply Forall_impl; [exact Fn|]. apply net_is_pipeline.
        - by constructor. }
      split.
      { simpl. rewrite !task_events_app, (task_events_net dn Fn). simpl.
        rewrite Et, concat_outputs_snoc. reflexivity. }
      destruct (fst (run_tasks P tasks _ _)) as [ctx'|e'].
      * destruct Hr as [-> Hl]. simpl. rewrite <- app_assoc, Hl. done.
      * simpl. lia.
    + exists (EvTaskStart role (concat_outputs ctx) :: dn), [].
      unfold bind. rewrite E. simpl.
      split; [reflexivity|]. split.
      { constructor; [exact I|].
        eapply Forall_impl; [exact Fn|]. apply net_is_pipeline. }
      split; [by rewrite (task_events_net dn Fn)|]. lia.
Qed.

Lemma run_tasks_app (done rest : list Task.t) (ctx : RunContext)
  (w : World) :
  run_tasks P (done ++ rest) ctx w =
    bind (run_tasks P done ctx) (run_tasks P rest) w.
Proof.
  revert ctx w. induction done as [|task done IH]; intros ctx w.
  - reflexivity.
  - simpl. rewrite bind_bind. apply bind_ext. intros output w1. apply IH.
Qed.
End FrameworkFacts.

Lemma map_fst_zip {A B} (l : list A) (k : list B) :
  length k = length l -> map fst (zip l k) = l.
Proof.
  revert k. induction l as [|a l IH]; intros [|b k] H; simpl in *;
    try discriminate; [reflexivity|].
  f_equal. apply IH. lia.
Qed.

Lemma map_snd_zip {A B} (l : list A) (k : list B) :
  length k = length l -> map snd (zip l k) = k.
Proof.
  revert k. induction l as [|a l IH]; intros [|b k] H; simpl in *;
    try discriminate; [reflexivity|].
  f_equal. apply IH. lia.
Qed.

(** Where a task start can sit in a prefix of the stage order: right
    after all earlier stages have started and finished. *)
Lemma started_position (n : nat) (l1 l2 : list Mark) (role : string) :
  l1 ++ Started role :: l2 = take n stage_order ->
  exists i, stage_roles !! i = Some role /\ l1 = take (2 * i) stage_order.
Proof.
  intros H.
  assert (take n stage_order !! length l1 = Some (Started role)) as Hk.
  { rewrite <- H. by rewrite list_lookup_middle. }
  apply lookup_take_Some in Hk as [Hk Hlt].
  assert (l1 = take (length l1) stage_order) as Hl1.
  { rewrite <- (take_app_length l1 (Started role :: l2)) at 1.
    rewrite H, take_take. f_equal. lia. }
  revert Hk Hl1. generalize (length l1). clear.
  intros k Hk Hl1.
  destruct k as [|[|[|[|[|[|[|[|k]]]]]]]]; simpl in Hk;
    try discriminate Hk; injection Hk as <-;
    [exists 0 | exists 1 | exists 2 | exists 3]; done.
Qed.

(** ** The proposal pipeline *)

Section PipelineFacts.
Context (P : Providers).

Lemma crew_tools_ok (self : AIProposalSystem.t) (company_name : string) :
  Forall (fun task => tools_ok (Task.agent task))
    (Crew.tasks (AIProposalSystem.crew_of P self company_name)).
Proof.
  repeat constructor; intros q w; simpl.
  - rewrite tavily_search_run. eexists. split; [reflexivity|].
    by repeat constructor.
  - rewrite tavily_search_run. eexists. split; [reflexivity|].
    by repeat constructor.
  - rewrite search_kaggle_run. eexists. split; [reflexivity|].
    by repeat constructor.
  - rewrite search_huggingface_run. eexists. split; [reflexivity|].
    by repeat constructor.
Qed.

Lemma crew_marks (self : AIProposalSystem.t) (company_name seen : string)
  (outs : list string) :
  marks (sequential_events
           (Crew.tasks (AIProposalSystem.crew_of P self company_name))
           seen outs)
  = take (if decide (length outs < 4) then 2 * length outs + 1 else 8)
      stage_order.
Proof.
  destruct outs as [|o1 [|o2 [|o3 [|o4 outs]]]]; reflexivity.
Qed.

(** The run of the crew inside [generate_proposal]. *)
Lemma kickoff_run (self : AIProposalSystem.t) (company_name : string)
  (w : World) :
  let crew := AIProposalSystem.crew_of P self company_name in
  exists d outs,
    snd (kickoff P crew w) = logged w d /\
    Forall is_pipeline d /\
    task_events d = sequential_events (Crew.tasks crew) "" outs /\
    match fst (kickoff P crew w) with
    | Ret result =>
        length outs = 4 /\
        run_tasks P (Crew.tasks crew) [] w
          = (Ret (zip (Crew.tasks crew) outs), logged w d) /\
        result = final_output (zip (Crew.tasks crew) outs)
    | Raise _ => length outs < 4
    end.
Proof.
  intros crew.
  pose proof (crew_tools_ok self company_name) as Hok. fold crew in Hok.
  assert (length (Crew.tasks crew) = 4) as Hlen by reflexivity.
  unfold kickoff. change (Crew.process crew) with sequential. cbv iota.
  remember (Crew.tasks crew) as tasks eqn:Htasks. clear Htasks.
  destruct (run_tasks_run P tasks Hok [] w) as (d & outs & Es & Fd & Et & Hr).
  exists d, outs. unfold bind.
  destruct (run_tasks P tasks [] w) as [[ctx|e] w1];
    unfold fst, snd in Es, Hr |- *; subst w1.
  - destruct Hr as [-> Hl]. rewrite app_nil_l.
    repeat split; try done. by rewrite Hl.
  - repeat split; try done. by rewrite <- Hlen.
Qed.

Lemma store_store (w : World) (path a b : string) :
  store (store w path a) path b = store w path b.
Proof.
  unfold store. cbn [environ files trace]. f_equal.
  apply insert_insert_eq.
Qed.

(** The three ways the save can end. *)
Lemma write_file_eq (path content : string) (w : World) :
  write_file P path content w =
    match open_error P path with
    | Some e => (Raise e, w)
    | None =>
        match write_error P path content with
        | Some (e, partial) => (Raise e, store w path partial)
        | None =>
            (Ret tt, store w path (newlines_out (linesep P) content))
        end
    end.
Proof.
  unfold write_file. destruct (open_error P path); [reflexivity|].
  cbv zeta. destruct (write_error P path content) as [[e partial]|];
    by rewrite store_store.
Qed.

(** [generate_proposal] in one equation: the run of the crew decides
    everything, and the file is written only after it has returned. *)
Lemma generate_proposal_eq (self : AIProposalSystem.t)
  (company_name : string) (w : World) :
  AIProposalSystem.generate_proposal P self company_name w =
    match kickoff P (AIProposalSystem.crew_of P self company_name)
            (logged w [generate_call]) with
    | (Ret result, w1) =>
        let filename :=
          AIProposalSystem.filename_of company_name
            (strftime (wall_clock P (trace w1))) in
        match open_error P filename with
        | Some e => (Raise e, w1)
        | None =>
            match write_error P filename result with
            | Some (e, partial) => (Raise e, store w1 filename partial)
            | None =>
                (Ret filename,
                 store w1 filename (newlines_out (linesep P) result))
            end
        end
    | (Raise e, w1) => (Raise e, w1)
    end.
Proof.
  unfold AIProposalSystem.generate_proposal. rewrite bind_emit. cbv zeta.
  unfold bind at 1.
  destruct (kickoff P _ _) as [[result|e] w1]; [|reflexivity].
  unfold bind at 1. unfold datetime_now at 1. unfold bind.
  rewrite write_file_eq. unfold ret.
  destruct (open_error P _); [reflexivity|].
  by destruct (write_error P _ _) as [[e partial]|].
Qed.

(** What [generate_proposal] leaves in the trace, whether it returns
    or raises. *)
Lemma generate_proposal_trace (self : AIProposalSystem.t)
  (company_name : string) (w : World) :
  let run := AIProposalSystem.generate_proposal P self company_name w in
  let tasks := Crew.tasks (AIProposalSystem.crew_of P self company_name) in
  exists d outs,
    trace (snd run) = trace w ++ generate_call :: d /\
    environ (snd run) = environ w /\
    Forall is_pipeline d /\
    task_events d = sequential_events tasks "" outs /\
    (forall path, fst run = Ret path -> length outs = 4).
Proof.
  intros run tasks. unfold run. rewrite generate_proposal_eq.
  destruct (kickoff_run self company_name (logged w [generate_call]))
    as (d & outs & Es & Fd & Et & Hr).
  exists d, outs.
  destruct (kickoff P _ _) as [[result|e] w1];
    unfold fst, snd in Es, Hr; subst w1.
  - destruct Hr as (Hl & _ & _). cbv zeta.
    destruct (open_error P _);
      [|destruct (write_error P _ _) as [[e partial]|]];
      unfold fst, snd, store, logged, trace, environ;
      rewrite <- app_assoc; done.
  - unfold fst, snd, logged, trace, environ. rewrite <- app_assoc.
    repeat split; done.
Qed.
End PipelineFacts.

Section RunContextFacts.
Context (P : Providers).

(** The context recorded after the first [k] tasks is the first [k]
    entries of the final one. *)
Lemma run_tasks_prefix (tasks : list Task.t) (ctx0 ctx : RunContext)
  (w w' : World) (k : nat) :
  Forall (fun task => tools_ok (Task.agent task)) tasks ->
  run_tasks P tasks ctx0 w = (Ret ctx, w') ->
  exists wk,
    run_tasks P (take k tasks) ctx0 w
      = (Ret (take (length ctx0 + k) ctx), wk).
Proof.
  intros Hok H.
  rewrite <- (take_drop k tasks), run_tasks_app in H. unfold bind in H.
  destruct (run_tasks_run P (take k tasks) (Forall_take _ k _ Hok) ctx0 w)
    as (d1 & outs1 & _ & _ & _ & Hr1).
  destruct (run_tasks P (take k tasks) ctx0 w) as [[c1|e] w1];
    [|discriminate H].
  unfold fst in Hr1. destruct Hr1 as [-> Hl1].
  destruct (run_tasks_run P (drop k tasks) (Forall_drop _ k _ Hok)
              (ctx0 ++ zip (take k tasks) outs1) w1)
    as (d2 & outs2 & _ & _ & _ & Hr2).
  rewrite H in Hr2. unfold fst in Hr2. destruct Hr2 as [-> Hl2].
  exists w1. do 2 f_equal.
  assert (length (zip (take k tasks) outs1) = length (take k tasks)) as Hz.
  { rewrite length_zip_with. lia. }
  rewrite length_take in Hz, Hl1. rewrite length_drop in Hl2.
  destruct (decide (k <= length tasks)) as [Hk|Hk].
  - rewrite <- app_assoc, take_app_add'; [|reflexivity].
    rewrite take_app_length'; [reflexivity|lia].
  - destruct outs2; [|simpl in Hl2; lia].
    rewrite drop_ge by lia. simpl. rewrite app_nil_r.
    symmetry. apply take_ge. rewrite length_app. lia.
Qed.
End RunContextFacts.

(** C2.  When a stage raises, [generate_proposal] raises the same
    exception and the files are what they were before the run: nothing
    is written.  Stage [k+1] is the task at index [k]; it is reached
    after the tasks before it have returned. *)
Theorem stage_failure_aborts_run (P : Providers) (self : AIProposalSystem.t)
  (company_name : string) (w : World) (k : nat) (task : Task.t)
  (ctx : RunContext) (w1 w2 : World) (e : exn) :
  let tasks := Crew.tasks (AIProposalSystem.crew_of P self company_name) in
  tasks !! k = Some task ->
  run_tasks P (take k tasks) [] (logged w [generate_call]) = (Ret ctx, w1) ->
  execute P task (concat_outputs ctx) w1 = (Raise e, w2) ->
  AIProposalSystem.generate_proposal P self company_name w = (Raise e, w2) /\
  files w2 = files w.
Proof.
  intros tasks Hk Hdone Hfail.
  assert (kickoff P (AIProposalSystem.crew_of P self company_name)
            (logged w [generate_call]) = (Raise e, w2)) as Hkick.
  { unfold kickoff.
    change (Crew.process (AIProposalSystem.crew_of P self company_name))
      with sequential. cbv iota.
    fold tasks. rewrite <- (take_drop k tasks).
    rewrite (drop_S _ _ _ Hk).
    unfold bind at 1. rewrite run_tasks_app. unfold bind at 1.
    rewrite Hdone. simpl run_tasks. unfold bind at 1. by rewrite Hfail. }
  rewrite generate_proposal_eq, Hkick. split; [reflexivity|].
  destruct (kickoff_run P self company_name (logged w [generate_call]))
    as (d & outs & Es & _).
  rewrite Hkick in Es. unfold snd in Es. by rewrite Es.
Qed.

Lemma stage_failure_aborts_run_witness :
  let P := stub echo_search failing_market_script (fun _ => true) in
  fst (AIProposalSystem.generate_proposal P system0 "Acme" world0)
    = Raise (Exception "model call failed") /\
  files (snd (AIProposalSystem.generate_proposal P system0 "Acme" world0))
    = files world0.
Proof.
  intros P.
  pose (tasks := Crew.tasks (AIProposalSystem.crew_of P system0 "Acme")).
  pose (market_task :=
          TaskFactory.create_market_task
            (AgentFactory.create_market_standards_agent P
               (AIProposalSystem.agent_factory system0)) "Acme").
  pose (before := run_tasks P (take 1 tasks) []
                    (logged world0 [generate_call])).
  pose (ctx := match fst before with Ret c => c | Raise _ => [] end).
  pose (failed := execute P market_task (concat_outputs ctx) (snd before)).
  destruct (stage_failure_aborts_run P system0 "Acme" world0 1 market_task
              ctx (snd before) (snd failed)
              (Exception "model call failed")) as [E F].
  - reflexivity.
  - vm_compute. reflexivity.
  - vm_compute. reflexivity.
  - rewrite E. split; [reflexivity|exact F].
Defined.

(** C3.  In every run the four stages start and finish one after another
    in the order research, market analysis, resource discovery,
    proposal: the task boundaries in the trace are an initial part of
    that order (all of it when the run returns), and any stage starts
    only once every stage before it has started and finished; so the
    resource stage never starts before the market stage has returned. *)
Theorem stages_run_in_order (P : Providers) (self : AIProposalSystem.t)
  (company_name : string) (w : World) :
  let run := AIProposalSystem.generate_proposal P self company_name w in
  exists d,
    trace (snd run) = trace w ++ d /\
    (exists n, 1 <= n /\ marks d = take n stage_order) /\
    (forall path, fst run = Ret path -> marks d = stage_order) /\
    (forall pre role c post,
       d = pre ++ EvTaskStart role c :: post ->
       exists i, stage_roles !! i = Some role /\
                 marks pre = take (2 * i) stage_order) /\
    (forall pre c post,
       d = pre ++ EvTaskStart resource_role c :: post ->
       In (Finished market_role) (marks pre)).
Proof.
  intros run.
  destruct (generate_proposal_trace P self company_name w)
    as (d & outs & Etr & _ & _ & Et & Hret).
  fold run in Etr, Hret.
  exists (generate_call :: d). split; [exact Etr|].
  assert (marks (generate_call :: d)
          = take (if decide (length outs < 4)
                  then 2 * length outs + 1 else 8) stage_order) as Hm.
  { change (marks (generate_call :: d)) with (marks d).
    rewrite <- marks_task_events, Et. apply crew_marks. }
  assert (forall pre role c post,
            generate_call :: d = pre ++ EvTaskStart role c :: post ->
            exists i, stage_roles !! i = Some role /\
                      marks pre = take (2 * i) stage_order) as Hpos.
  { intros pre role c post Hsplit. rewrite Hsplit, marks_app in Hm.
    exact (started_position _ _ _ _ Hm). }
  split; [|split; [|split]].
  - eexists. split; [|exact Hm]. destruct (decide _); lia.
  - intros path Hp. rewrite Hm, (Hret path Hp). reflexivity.
  - exact Hpos.
  - intros pre c post Hsplit.
    destruct (Hpos pre resource_role c post Hsplit) as (i & Hi & ->).
    destruct i as [|[|[|[|i]]]]; simpl in Hi; try discriminate Hi.
    simpl. auto.
Qed.

(** C4.  Every stage is given the concatenation of the outputs of all
    stages before it, and the run context only grows: its entries pair
    the tasks, in execution order, with the outputs in the order they
    were produced, and what is recorded after the first [k] tasks is
    still the first [k] entries at the end. *)
Theorem stage_context_is_prior_outputs (P : Providers)
  (self : AIProposalSystem.t) (company_name : string) (w : World) :
  let run := AIProposalSystem.generate_proposal P self company_name w in
  let tasks := Crew.tasks (AIProposalSystem.crew_of P self company_name) in
  exists d,
    trace (snd run) = trace w ++ d /\
    (forall pre role c post,
       d = pre ++ EvTaskStart role c :: post ->
       c = concat_strings (outputs_in pre)) /\
    (forall ctx w',
       run_tasks P tasks [] (logged w [generate_call]) = (Ret ctx, w') ->
       map fst ctx = tasks /\
       map snd ctx = outputs_in d /\
       forall k, exists wk,
         run_tasks P (take k tasks) [] (logged w [generate_call])
           = (Ret (take k ctx), wk)).
Proof.
  intros run tasks.
  unfold run. rewrite generate_proposal_eq.
  destruct (kickoff_run P self company_name (logged w [generate_call]))
    as (d & outs & Es & _ & Et & Hr).
  fold tasks in Et, Hr.
  exists (generate_call :: d). split; [|split].
  - destruct (kickoff P _ _) as [[result|e] w1]; unfold snd in Es; subst w1.
    + cbv zeta.
      destruct (open_error P _);
        [|destruct (write_error P _ _) as [[e partial]|]];
        unfold snd, store, logged, trace; by rewrite <- app_assoc.
    + unfold snd, logged, trace. by rewrite <- app_assoc.
  - intros pre role c post Hsplit.
    assert (contexts_from "" (generate_call :: d)) as Hc.
    { simpl. apply contexts_from_task_events. rewrite Et.
      apply contexts_from_sequential. }
    exact (contexts_from_split _ _ _ _ _ _ Hc Hsplit).
  - intros ctx w' Hrun.
    assert (kickoff P (AIProposalSystem.crew_of P self company_name)
              (logged w [generate_call]) = (Ret (final_output ctx), w'))
      as Hkick.
    { unfold kickoff.
      change (Crew.process (AIProposalSystem.crew_of P self company_name))
        with sequential. cbv iota. fold tasks. unfold bind.
      by rewrite Hrun. }
    rewrite Hkick in Hr. unfold fst in Hr.
    destruct Hr as (Hl & Hrun' & _).
    assert (ctx = zip tasks outs) as -> by congruence.
    assert (length outs = length tasks) as Hlt by (by rewrite Hl).
    split; [by apply map_fst_zip|]. split.
    + rewrite map_snd_zip by exact Hlt.
      change (outputs_in (generate_call :: d)) with (outputs_in d).
      rewrite <- outputs_in_task_events, Et, outputs_in_sequential.
      rewrite <- Hlt. symmetry. apply firstn_all.
    + intros k.
      exact (run_tasks_prefix P tasks [] _ _ _ k
               (crew_tools_ok P self company_name) Hrun).
Qed.

(** C5.  Once the crew has returned [result], and provided the
    destination can be opened for writing and the write itself does
    not fail, [generate_proposal] returns the path
    ai_proposal_<company>_<YYYYMMDD_HHMMSS>.md, stamped with the clock
    reading at that moment.  The file at that path holds [result],
    whatever was there before, with nothing escaped or cut: the only
    change text mode makes is to store each line feed as the host's
    line separator, so on a host where that is the line feed, and on
    any host for a text without line feeds, the file holds [result]
    character for character.  No other file is touched. *)
Theorem proposal_saved_verbatim (P : Providers) (self : AIProposalSystem.t)
  (company_name result : string) (w w1 : World) :
  let timestamp := strftime (wall_clock P (trace w1)) in
  let filename :=
    "ai_proposal_" +:+ company_name +:+ "_" +:+ timestamp +:+ ".md" in
  kickoff P (AIProposalSystem.crew_of P self company_name)
    (logged w [generate_call]) = (Ret result, w1) ->
  open_error P filename = None ->
  write_error P filename result = None ->
  is_timestamp timestamp = true /\
  exists w',
    AIProposalSystem.generate_proposal P self company_name w
      = (Ret filename, w') /\
    files w' = <[filename := newlines_out (linesep P) result]> (files w) /\
    (linesep P = posix_linesep \/ lf_free result = true ->
     files w' = <[filename := result]> (files w) /\
     files w' !! filename = Some result) /\
    (forall path, path <> filename -> files w' !! path = files w !! path).
Proof.
  intros timestamp filename Hkick Hopen Hwrite.
  split; [apply strftime_is_timestamp|].
  destruct (kickoff_run P self company_name (logged w [generate_call]))
    as (d & outs & Es & _).
  rewrite Hkick in Es. unfold snd in Es.
  assert (files w1 = files w) as Hfiles by (by rewrite Es).
  rewrite generate_proposal_eq, Hkick. cbv zeta.
  change (AIProposalSystem.filename_of company_name
            (strftime (wall_clock P (trace w1)))) with filename.
  rewrite Hopen, Hwrite. eexists. split; [reflexivity|].
  cbn [store files]. rewrite Hfiles.
  split; [reflexivity|]. split.
  - intros [->|Hplain];
      [rewrite newlines_out_posix|rewrite newlines_out_lf_free by exact Hplain];
      (split; [reflexivity|apply lookup_insert_eq]).
  - intros path Hne. by apply lookup_insert_ne.
Qed.

Lemma proposal_saved_verbatim_witness :
  let P := stub echo_search fixed_script (fun _ => true) in
  let run := AIProposalSystem.generate_proposal P system0 "Acme" world0 in
  fst run = Ret "ai_proposal_Acme_20240309_120007.md" /\
  files (snd run) !! "ai_proposal_Acme_20240309_120007.md"
    = Some "Final Proposal Text".
Proof.
  intros P run.
  pose (crewed := kickoff P (AIProposalSystem.crew_of P system0 "Acme")
                    (logged world0 [generate_call])).
  destruct (proposal_saved_verbatim P system0 "Acme" "Final Proposal Text"
              world0 (snd crewed)) as (_ & w' & E & _ & L & _).
  - vm_compute. reflexivity.
  - reflexivity.
  - reflexivity.
  - unfold run. rewrite E. split; [reflexivity|].
    exact (proj2 (L (or_introl eq_refl))).
Defined.

(** ** The Streamlit script *)

Lemma truthy_true (s : string) : s <> "" -> truthy s = true.
Proof. by destruct s. Qed.

Lemma all_keys_true (k1 k2 k3 : string) :
  k1 <> "" -> k2 <> "" -> k3 <> "" -> all [k1; k2; k3] = true.
Proof.
  intros H1 H2 H3. unfold all; simpl.
  by rewrite !truthy_true.
Qed.

Lemma all_keys_false (k1 k2 k3 : string) :
  k1 = "" \/ k2 = "" \/ k3 = "" -> all [k1; k2; k3] = false.
Proof.
  unfold all; simpl. intros [-> | [-> | ->]]; simpl.
  - reflexivity.
  - by rewrite andb_false_r.
  - by rewrite !andb_false_r.
Qed.

Lemma bind_setenv {B} (k v : string) (f : unit -> M B) w :
  bind (setenv k v) f w = f tt (set_environ w k v).
Proof. reflexivity. Qed.

Lemma st_logged (u : Widget) w : st u w = (Ret tt, logged w [EvUI u]).
Proof. reflexivity. Qed.

(** One step of the script: the call at the head has run. *)
Ltac step :=
  lazymatch goal with
  | |- context [bind (bind ?m ?f) ?g ?w] => rewrite (bind_bind m f g w)
  | |- context [bind (st ?u) ?k ?w] => rewrite (bind_st u k w)
  | |- context [bind (emit ?ev) ?k ?w] => rewrite (bind_emit ev k w)
  | |- context [bind (setenv ?k ?v) ?f ?w] => rewrite (bind_setenv k v f w)
  | |- context [bind (ret ?a) ?k ?w] => rewrite (bind_ret a k w)
  end;
  cbv beta.

Section ScriptFacts.
Context (P : Providers).

(** With a key missing the script renders the form with the button
    disabled, and then only the footer. *)
Lemma main_blocked (s : Session) (w : World) :
  all [openai_key_field s; tavily_key_field s; kaggle_key_field s]
    = false ->
  main P s w = (Ret tt, logged w (form_events false ++ idle_footer)).
Proof.
  intros Hall. unfold main, st_text_input, st_button.
  do 12 step. rewrite Hall. cbn [negb].
  repeat step. rewrite andb_false_r.
  unfold render_metrics. repeat step.
  rewrite st_logged, !logged_logged. reflexivity.
Qed.

(** With the keys in place and no company name the handler reports
    the error and returns. *)
Lemma main_no_company (s : Session) (w : World) :
  all [openai_key_field s; tavily_key_field s; kaggle_key_field s]
    = true ->
  company_name_field s = "" ->
  button_clicked s = true ->
  main P s w =
    (Ret tt,
     logged w (form_events true
               ++ [EvUI (error "Please enter a company name")])).
Proof.
  intros Hall Hcompany Hclick. unfold main, st_text_input, st_button.
  do 12 step. rewrite Hall. cbn [negb].
  repeat step. rewrite Hclick, Hcompany. cbn [negb andb truthy].
  repeat step. unfold ret. rewrite !logged_logged. reflexivity.
Qed.
End ScriptFacts.

(** C7.  With any of the three key fields empty the script warns,
    renders the run button disabled and does nothing else, clicked or
    not: it returns with environment and files as they were, and its
    trace holds Streamlit calls only, so no constructor or method of
    the orchestrator is entered and no request goes out. *)
Theorem missing_key_blocks_run (P : Providers) (s : Session) (w : World) :
  openai_key_field s = "" \/ tavily_key_field s = ""
  \/ kaggle_key_field s = "" ->
  exists d,
    main P s w = (Ret tt, logged w d) /\
    In (EvUI (warning "Please provide all required API keys")) d /\
    In (EvUI (button "Generate Proposal" true)) d /\
    Forall is_ui d /\
    environ (snd (main P s w)) = environ w /\
    files (snd (main P s w)) = files w.
Proof.
  intros Hempty.
  exists (form_events false ++ idle_footer).
  rewrite (main_blocked P s w (all_keys_false _ _ _ Hempty)).
  split; [reflexivity|]. split; [simpl; tauto|]. split; [simpl; tauto|].
  split; [|split; reflexivity].
  by repeat constructor.
Qed.

Lemma missing_key_blocks_run_witness :
  let P := stub echo_search fixed_script (fun _ => true) in
  exists d, main P session_missing_key world0 = (Ret tt, logged world0 d) /\
            Forall is_ui d.
Proof.
  intros P.
  destruct (missing_key_blocks_run P session_missing_key world0)
    as (d & E & _ & _ & F & _).
  - right; right; reflexivity.
  - exists d. split; [exact E|exact F].
Defined.

(** C8.  With the three keys filled in, the button clicked and the
    company name empty, the handler reports "Please enter a company
    name" and the script returns there: that error is the last thing in
    the trace, the trace holds Streamlit calls only (no constructor
    entered, no request sent), and environment and files are as they
    were. *)
Theorem empty_company_returns_early (P : Providers) (s : Session)
  (w : World) :
  openai_key_field s <> "" -> tavily_key_field s <> "" ->
  kaggle_key_field s <> "" ->
  company_name_field s = "" ->
  button_clicked s = true ->
  exists d,
    main P s w = (Ret tt, logged w d) /\
    last d = Some (EvUI (error "Please enter a company name")) /\
    In (EvUI (button "Generate Proposal" false)) d /\
    Forall is_ui d /\
    environ (snd (main P s w)) = environ w /\
    files (snd (main P s w)) = files w.
Proof.
  intros H1 H2 H3 Hcompany Hclick.
  exists (form_events true ++ [EvUI (error "Please enter a company name")]).
  rewrite (main_no_company P s w (all_keys_true _ _ _ H1 H2 H3)
             Hcompany Hclick).
  split; [reflexivity|]. split; [reflexivity|]. split; [simpl; tauto|].
  split; [|split; reflexivity].
  by repeat constructor.
Qed.

Lemma empty_company_returns_early_witness :
  let P := stub echo_search fixed_script (fun _ => true) in
  exists d, main P session_no_company world0 = (Ret tt, logged world0 d) /\
            Forall is_ui d /\
            environ (snd (main P session_no_company world0)) = ∅.
Proof.
  intros P.
  destruct (empty_company_returns_early P session_no_company world0)
    as (d & E & _ & _ & F & Henv & _).
  - discriminate.
  - discriminate.
  - discriminate.
  - reflexivity.
  - reflexivity.
  - exists d. split; [exact E|]. split; [exact F|exact Henv].
Defined.

Lemma bind_run {A B} (m : M A) (k : A -> M B) w a w1 :
  m w = (Ret a, w1) -> bind m k w = k a w1.
Proof. intros H. unfold bind. by rewrite H. Qed.

Lemma bind_raise {A B} (m : M A) (k : A -> M B) w e w1 :
  m w = (Raise e, w1) -> bind m k w = (Raise e, w1).
Proof. intros H. unfold bind. by rewrite H. Qed.

Lemma pipeline_quiet_after (ev : Event) : is_pipeline ev -> quiet_after ev.
Proof.
  destruct ev; simpl; try done; intros _; (split; [discriminate|tauto]).
Qed.

Lemma setup_call_not_generate (ev : Event) :
  is_setup_call ev -> ev <> generate_call.
Proof.
  destruct ev; simpl; try done. intros H E. apply H.
  by injection E.
Qed.

(** One occurrence, one split. *)
Lemma split_unique {A} (x : A) (l1 l2 pre post : list A) :
  ~ In x l1 -> ~ In x l2 ->
  l1 ++ x :: l2 = pre ++ x :: post -> pre = l1 /\ post = l2.
Proof.
  intros H1 H2. revert pre.
  induction l1 as [|a l1 IH]; intros [|b pre] H; simpl in H.
  - by injection H as <-.
  - injection H as <- ->. exfalso. apply H2. apply in_or_app. right. by left.
  - injection H as -> _. exfalso. apply H1. by left.
  - injection H as <- H.
    destruct (IH (fun Hin => H1 (or_intror Hin)) pre H) as [-> ->]. done.
Qed.

Section TriggeredRun.
Context (P : Providers).

Lemma init_emits : emits is_setup_call (AIProposalSystem.__init__ P).
Proof.
  unfold AIProposalSystem.__init__, Tools.__init__.
  apply emits_bind; [by apply emits_emit|]. intros _.
  apply emits_bind; [apply emits_getenv|]. intros key.
  apply emits_bind; [by apply emits_emit|]. intros _.
  apply emits_bind.
  { destruct (chat_openai_error P key); [apply emits_raise|apply emits_ret]. }
  intros llm.
  apply emits_bind; [|intros tools; apply emits_ret].
  apply emits_bind; [apply emits_getenv|]. intros key'.
  apply emits_bind; [by apply emits_emit|]. intros _.
  destruct (tavily_client_error P key'); [apply emits_raise|apply emits_ret].
Qed.

(** The [try] block with its [except]: it never raises; the trace
    gets the two widgets, the eight updates, the entry into
    [generate_proposal], and from there on no update any more. *)
Lemma display_run (system : AIProposalSystem.t) (company_name : string)
  (w : World) :
  exists pc B w',
    try_except (run_and_display P system company_name) report_failure w
      = (Ret pc, w') /\
    trace w' = trace w ++ [EvUI (progress 0); EvUI empty]
               ++ progress_updates ++ generate_call :: B /\
    Forall quiet_after B.
Proof.
  unfold try_except, run_and_display.
  cbn [stages enumerate enumerate_from for_each].
  repeat step.
  rewrite !logged_logged. cbn [app Nat.add Nat.mul].
  set (w3 := logged w _).
  destruct (generate_proposal_trace P system company_name w3)
    as (d & outs & Etr & _ & Fd & _).
  assert (Forall quiet_after d) as Qd
    by (eapply Forall_impl; [exact Fd|apply pipeline_quiet_after]).
  destruct (AIProposalSystem.generate_proposal P system company_name w3)
    as [[proposal_file|e] w4] eqn:Hgp; unfold snd in Etr.
  - rewrite (bind_run _ _ _ _ _ Hgp).
    destruct (files w4 !! proposal_file) as [content|] eqn:Hfile.
    + rewrite (bind_run (read_file proposal_file) _ w4
                 (universal_newlines content) w4)
        by (unfold read_file; by rewrite Hfile).
      repeat step. unfold ret. rewrite !logged_logged.
      eexists _, (d ++ _), _. split; [reflexivity|]. split.
      * unfold logged, trace at 1. rewrite Etr. unfold w3, logged, trace.
        rewrite <- !app_assoc. reflexivity.
      * apply Forall_app. split; [exact Qd|].
        repeat constructor; try discriminate; simpl; tauto.
    + rewrite (bind_raise (read_file proposal_file) _ w4 _ w4)
        by (unfold read_file; by rewrite Hfile).
      unfold report_failure. repeat step. unfold ret.
      rewrite !logged_logged.
      eexists _, (d ++ _), _. split; [reflexivity|]. split.
      * unfold logged, trace at 1. rewrite Etr. unfold w3, logged, trace.
        rewrite <- !app_assoc. reflexivity.
      * apply Forall_app. split; [exact Qd|].
        repeat constructor; try discriminate; simpl; tauto.
  - rewrite (bind_raise _ _ _ _ _ Hgp).
    unfold report_failure. repeat step. unfold ret.
    rewrite !logged_logged.
    eexists _, (d ++ _), _. split; [reflexivity|]. split.
    * unfold logged, trace at 1. rewrite Etr. unfold w3, logged, trace.
      rewrite <- !app_assoc. reflexivity.
    * apply Forall_app. split; [exact Qd|].
      repeat constructor; try discriminate; simpl; tauto.
Qed.
End TriggeredRun.

Section TriggeredScript.
Context (P : Providers).

Lemma render_metrics_run (pc : option string) (w : World) :
  exists d, render_metrics pc w = (Ret tt, logged w d) /\
            Forall quiet_after d.
Proof.
  unfold render_metrics. destruct pc as [content|]; repeat step.
  - rewrite st_logged, !logged_logged. eexists. split; [reflexivity|].
    repeat constructor; try discriminate; simpl; tauto.
  - rewrite st_logged, !logged_logged. eexists. split; [reflexivity|].
    repeat constructor; try discriminate; simpl; tauto.
Qed.

(** The shape of a triggered run: either a constructor raised and the
    pipeline was never entered, or the script returns and its trace
    has the eight updates, then the entry into [generate_proposal],
    then no update and no second entry.  Before the entry there are
    only Streamlit calls and constructor entries. *)
Lemma main_triggered_trace (s : Session) (w : World) :
  openai_key_field s <> "" -> tavily_key_field s <> "" ->
  kaggle_key_field s <> "" ->
  company_name_field s <> "" ->
  button_clicked s = true ->
  (exists e A,
     fst (main P s w) = Raise e /\
     trace (snd (main P s w)) = trace w ++ A /\
     Forall (fun ev => is_ui ev \/ is_setup_call ev) A) \/
  (exists A B,
     fst (main P s w) = Ret tt /\
     trace (snd (main P s w))
       = trace w ++ (A ++ progress_updates) ++ generate_call :: B /\
     Forall (fun ev => is_ui ev \/ is_setup_call ev)
       (A ++ progress_updates) /\
     Forall quiet_after B).
Proof.
  intros H1 H2 H3 Hcompany Hclick. unfold main, st_text_input, st_button.
  do 12 step. rewrite (all_keys_true _ _ _ H1 H2 H3). cbn [negb].
  repeat step.
  rewrite Hclick, (truthy_true _ Hcompany). cbn [negb andb].
  do 3 step. rewrite !logged_logged.
  set (w1 := set_environ _ _ _).
  assert (trace w1 = trace w ++ form_events true) as Htr1 by reflexivity.
  clearbody w1.
  destruct (init_emits P w1) as (dinit & Einit & Finit).
  assert (Forall (fun ev => is_ui ev \/ is_setup_call ev)
            (form_events true ++ dinit)) as Hbefore.
  { apply Forall_app. split.
    - repeat constructor; left; exact I.
    - eapply Forall_impl; [exact Finit|]. by right. }
  destruct (AIProposalSystem.__init__ P w1) as [[system|e] w2] eqn:Hinit;
    unfold snd in Einit; subst w2.
  - right. rewrite (bind_run _ _ _ _ _ Hinit). step.
    destruct (display_run P system (company_name_field s)
                (logged (logged w1 dinit)
                   [EvUI (spinner "Generating AI/ML proposal...")]))
      as (pc & B & w3 & Erun & Etr & QB).
    rewrite (bind_run _ _ _ _ _ Erun).
    destruct (render_metrics_run pc w3) as (dm & Em & Qm).
    rewrite Em.
    exists ((form_events true ++ dinit)
            ++ [EvUI (spinner "Generating AI/ML proposal...");
                EvUI (progress 0); EvUI empty]), (B ++ dm).
    split; [reflexivity|]. split; [|split].
    + unfold snd. cbn [logged trace]. rewrite Etr. cbn [logged trace].
      rewrite Htr1, <- !app_assoc. reflexivity.
    + apply Forall_app. split; [apply Forall_app; split|].
      * exact Hbefore.
      * repeat constructor; left; exact I.
      * repeat constructor; left; exact I.
    + apply Forall_app. split; assumption.
  - left. rewrite (bind_raise _ _ _ _ _ Hinit).
    exists e, (form_events true ++ dinit). split; [reflexivity|].
    split; [|exact Hbefore].
    unfold snd. cbn [logged trace]. by rewrite Htr1, <- app_assoc.
Qed.
End TriggeredScript.

Lemma before_not_generate (l : list Event) :
  Forall (fun ev => is_ui ev \/ is_setup_call ev) l -> ~ In generate_call l.
Proof.
  intros F Hin. rewrite Forall_forall in F.
  apply list_elem_of_In in Hin. destruct (F _ Hin) as [H|H].
  - exact H.
  - simpl in H. by apply H.
Qed.

Lemma before_not_pipeline (l : list Event) :
  Forall (fun ev => is_ui ev \/ is_setup_call ev) l ->
  Forall (fun ev => ~ is_pipeline ev) l.
Proof.
  intros F. eapply Forall_impl; [exact F|].
  intros ev [H|H]; destruct ev; simpl in *; tauto.
Qed.

(** C10.  In a triggered run, wherever the trace shows the entry into
    [generate_proposal], the four stage labels and the four progress
    values 25, 50, 75, 100 have been issued right before it, in that
    order; nothing of the pipeline has happened before it; and no label
    or progress value is issued after it: the display has reached 100%
    before the first stage starts and does not change while the stages
    execute.  A run that returns does enter [generate_proposal]. *)
Theorem progress_updates_precede_generation (P : Providers) (s : Session)
  (w : World) :
  openai_key_field s <> "" -> tavily_key_field s <> "" ->
  kaggle_key_field s <> "" ->
  company_name_field s <> "" ->
  button_clicked s = true ->
  (forall pre post,
     trace (snd (main P s w)) = trace w ++ pre ++ generate_call :: post ->
     (exists a, pre = a ++ progress_updates) /\
     Forall (fun ev => ~ is_pipeline ev) pre /\
     Forall (fun ev => ~ is_progress_update ev) post) /\
  (fst (main P s w) = Ret tt ->
   exists pre post,
     trace (snd (main P s w)) = trace w ++ pre ++ generate_call :: post).
Proof.
  intros H1 H2 H3 Hcompany Hclick.
  destruct (main_triggered_trace P s w H1 H2 H3 Hcompany Hclick)
    as [(e & A & Hres & Htr & Hbefore)|(A & B & Hres & Htr & Hbefore & QB)].
  - split.
    + intros pre post Hsplit. rewrite Htr in Hsplit.
      apply app_inv_head in Hsplit. exfalso.
      apply (before_not_generate A Hbefore).
      rewrite Hsplit. apply in_or_app. right. by left.
    + intros Hret. rewrite Hres in Hret. discriminate Hret.
  - split.
    + intros pre post Hsplit. rewrite Htr in Hsplit.
      apply app_inv_head in Hsplit.
      apply split_unique in Hsplit as [-> ->];
        [|by apply before_not_generate|].
      * split; [by exists A|]. split.
        -- by apply before_not_pipeline.
        -- eapply Forall_impl; [exact QB|]. by intros ev [_ Hq].
      * intros Hin. rewrite Forall_forall in QB.
        apply list_elem_of_In in Hin. by destruct (QB _ Hin).
    + intros _. by exists (A ++ progress_updates), B.
Qed.

Lemma progress_updates_precede_generation_witness :
  let P := stub echo_search fixed_script (fun _ => true) in
  let tr := trace (snd (main P session_ready world0)) in
  (exists a, take 24 tr = a ++ progress_updates) /\
  Forall (fun ev => ~ is_progress_update ev) (drop 25 tr).
Proof.
  intros P tr.
  destruct (progress_updates_precede_generation P session_ready world0)
    as [H _]; try discriminate; try reflexivity.
  destruct (H (take 24 tr) (drop 25 tr)) as (Ha & _ & Hpost).
  - vm_compute. reflexivity.
  - split; [exact Ha|exact Hpost].
Defined.

(** * Further properties of the script and the orchestrator *)

Lemma bind_getenv {B} (k : string) (f : option string -> M B) w :
  bind (getenv k) f w = f (environ w !! k) w.
Proof. reflexivity. Qed.

Lemma keyed_world_eq (s : Session) (w : World) :
  set_environ
    (set_environ
       (set_environ (logged w (form_events true))
          "OPENAI_API_KEY" (openai_key_field s))
       "TAVILY_API_KEY" (tavily_key_field s))
    "KAGGLE_API_TOKEN" (kaggle_key_field s)
  = keyed_world s w.
Proof. reflexivity. Qed.

Lemma keyed_environ_openai (s : Session) (env : gmap string string) :
  keyed_environ s env !! "OPENAI_API_KEY" = Some (openai_key_field s).
Proof.
  unfold keyed_environ.
  rewrite lookup_insert_ne by discriminate.
  rewrite lookup_insert_ne by discriminate.
  apply lookup_insert_eq.
Qed.

Lemma keyed_environ_tavily (s : Session) (env : gmap string string) :
  keyed_environ s env !! "TAVILY_API_KEY" = Some (tavily_key_field s).
Proof.
  unfold keyed_environ.
  rewrite lookup_insert_ne by discriminate.
  apply lookup_insert_eq.
Qed.

Lemma keyed_environ_kaggle (s : Session) (env : gmap string string) :
  keyed_environ s env !! "KAGGLE_API_TOKEN" = Some (kaggle_key_field s).
Proof. unfold keyed_environ. apply lookup_insert_eq. Qed.

Section SetupFacts.
Context (P : Providers).

(** [AIProposalSystem()] in one equation: the keys come from the
    environment, and either constructor may refuse. *)
Lemma init_run (w : World) :
  AIProposalSystem.__init__ P w =
    match chat_openai_error P (environ w !! "OPENAI_API_KEY") with
    | Some e =>
        (Raise e, logged w [EvCall "AIProposalSystem"; EvCall "ChatOpenAI"])
    | None =>
        match tavily_client_error P (environ w !! "TAVILY_API_KEY") with
        | Some e => (Raise e, logged w setup_calls)
        | None =>
            let llm :=
              {| ChatOpenAI.temperature := "0.7";
                 ChatOpenAI.model := "gpt-4-turbo-preview";
                 ChatOpenAI.openai_api_key :=
                   environ w !! "OPENAI_API_KEY" |} in
            let tools :=
              {| Tools.tavily_client :=
                   {| TavilyClient.api_key :=
                        environ w !! "TAVILY_API_KEY" |} |} in
            (Ret {| AIProposalSystem.llm := llm;
                    AIProposalSystem.tools := tools;
                    AIProposalSystem.agent_factory :=
                      AgentFactory.__init__ llm tools |},
             logged w setup_calls)
        end
    end.
Proof.
  unfold AIProposalSystem.__init__, Tools.__init__.
  step. rewrite bind_getenv. step. cbn [logged environ].
  destruct (chat_openai_error P (environ w !! "OPENAI_API_KEY")) as [e|].
  - unfold bind, raise. rewrite logged_logged; reflexivity.
  - step. rewrite bind_bind, bind_getenv. repeat step.
    cbn [logged environ].
    destruct (tavily_client_error P (environ w !! "TAVILY_API_KEY")) as [e|].
    + unfold bind, raise. rewrite !logged_logged; reflexivity.
    + step. unfold ret. rewrite !logged_logged; reflexivity.
Qed.

(** The handler from the button on, in one equation. *)
Lemma main_triggered_eq (s : Session) (w : World) :
  openai_key_field s <> "" -> tavily_key_field s <> "" ->
  kaggle_key_field s <> "" ->
  company_name_field s <> "" ->
  button_clicked s = true ->
  main P s w =
    match AIProposalSystem.__init__ P (keyed_world s w) with
    | (Raise e, w2) => (Raise e, w2)
    | (Ret system, w2) =>
        bind (try_except
                (run_and_display P system (company_name_field s))
                (report_failure))
             (render_metrics)
             (logged w2 [EvUI (spinner "Generating AI/ML proposal...")])
    end.
Proof.
  intros H1 H2 H3 Hcompany Hclick. unfold main, st_text_input, st_button.
  do 12 step. rewrite (all_keys_true _ _ _ H1 H2 H3). cbn [negb].
  repeat step.
  rewrite Hclick, (truthy_true _ Hcompany). cbn [negb andb].
  do 3 step. rewrite !logged_logged.
  change (logged w _) with (logged w (form_events true)).
  rewrite keyed_world_eq.
  destruct (AIProposalSystem.__init__ P (keyed_world s w))
    as [[system|e] w2] eqn:Hinit.
  - rewrite (bind_run _ _ _ _ _ Hinit). step. reflexivity.
  - by rewrite (bind_raise _ _ _ _ _ Hinit).
Qed.

(** The [try] block with its [except], in one equation. *)
Lemma display_eq (system : AIProposalSystem.t) (company_name : string)
  (w : World) :
  try_except (run_and_display P system company_name) report_failure w =
    match AIProposalSystem.generate_proposal P system company_name
            (logged w ([EvUI (progress 0); EvUI empty] ++ progress_updates))
    with
    | (Ret proposal_file, w4) =>
        match files w4 !! proposal_file with
        | Some stored =>
            let proposal_content := universal_newlines stored in
            (Ret (Some proposal_content),
             logged w4 (proposal_display proposal_content proposal_file))
        | None =>
            (Ret None,
             logged w4
               (failure_report
                  (Exception ("[Errno 2] No such file or directory: '"
                              +:+ proposal_file +:+ "'"))))
        end
    | (Raise e, w4) => (Ret None, logged w4 (failure_report e))
    end.
Proof.
  unfold try_except, run_and_display.
  cbn [stages enumerate enumerate_from for_each].
  repeat step.
  rewrite !logged_logged. cbn [app Nat.add Nat.mul].
  change (logged w _)
    with (logged w ([EvUI (progress 0); EvUI empty] ++ progress_updates)).
  destruct (AIProposalSystem.generate_proposal P system company_name _)
    as [[proposal_file|e] w4] eqn:Hgp.
  - rewrite (bind_run _ _ _ _ _ Hgp).
    destruct (files w4 !! proposal_file) as [content|] eqn:Hfile.
    + rewrite (bind_run (read_file proposal_file) _ w4
                 (universal_newlines content) w4)
        by (unfold read_file; by rewrite Hfile).
      repeat step. unfold ret. rewrite !logged_logged; reflexivity.
    + rewrite (bind_raise (read_file proposal_file) _ w4 _ w4)
        by (unfold read_file; by rewrite Hfile).
      unfold report_failure. repeat step. unfold ret.
      rewrite !logged_logged; reflexivity.
  - rewrite (bind_raise _ _ _ _ _ Hgp).
    unfold report_failure. repeat step. unfold ret.
    rewrite !logged_logged; reflexivity.
Qed.

Lemma render_metrics_none (w : World) :
  render_metrics None w = (Ret tt, logged w idle_footer).
Proof.
  unfold render_metrics. repeat step.
  rewrite st_logged, !logged_logged. reflexivity.
Qed.

Lemma render_metrics_some (content : string) (w : World) :
  render_metrics (Some content) w = (Ret tt, logged w metrics_footer).
Proof.
  unfold render_metrics. repeat step.
  rewrite st_logged, !logged_logged. reflexivity.
Qed.
End SetupFacts.

Lemma task_events_In (ev : Event) (d : list Event) :
  In ev (task_events d) -> In ev d.
Proof.
  induction d as [|x d IH]; [done|].
  destruct x; simpl; intros H; try (right; by apply IH);
    (destruct H as [H|H]; [by left|right; by apply IH]).
Qed.

Section OutcomeFacts.
Context (P : Providers).

(** The four ways [generate_proposal] can end: the crew raised, the
    file could not be opened, the write failed, or the result was
    written.  When the crew returned, all four stages have finished and
    the result is the output of the last one. *)
Lemma generate_proposal_outcome (self : AIProposalSystem.t)
  (company_name : string) (w : World) :
  let crew := AIProposalSystem.crew_of P self company_name in
  let run := AIProposalSystem.generate_proposal P self company_name w in
  exists d, Forall is_pipeline d /\
    ((exists e,
        kickoff P crew (logged w [generate_call])
          = (Raise e, logged w (generate_call :: d)) /\
        run = (Raise e, logged w (generate_call :: d))) \/
     (exists result,
        kickoff P crew (logged w [generate_call])
          = (Ret result, logged w (generate_call :: d)) /\
        marks d = stage_order /\
        In (EvTaskEnd proposal_role result) d /\
        let path :=
          AIProposalSystem.filename_of company_name
            (strftime (wall_clock P (trace w ++ generate_call :: d))) in
        ((exists e, open_error P path = Some e /\
                    run = (Raise e, logged w (generate_call :: d))) \/
         (exists e partial,
            open_error P path = None /\
            write_error P path result = Some (e, partial) /\
            run = (Raise e,
                   store (logged w (generate_call :: d)) path partial)) \/
         (open_error P path = None /\
          write_error P path result = None /\
          run = (Ret path,
                 store (logged w (generate_call :: d)) path
                   (newlines_out (linesep P) result)))))).
Proof.
  intros crew run. unfold run. rewrite generate_proposal_eq. fold crew.
  destruct (kickoff_run P self company_name (logged w [generate_call]))
    as (d & outs & Es & Fd & Et & Hr).
  fold crew in Es, Et, Hr. exists d. split; [exact Fd|].
  rewrite logged_logged in Es.
  change ([generate_call] ++ d) with (generate_call :: d) in Es.
  destruct (kickoff P crew (logged w [generate_call])) as [[result|e] w1];
    unfold fst, snd in Es, Hr; subst w1.
  - right. exists result. split; [reflexivity|].
    destruct Hr as (Hl & _ & Hres).
    destruct outs as [|o1 [|o2 [|o3 [|o4 [|o5 outs]]]]]; try discriminate Hl.
    assert (result = o4) as -> by exact Hres.
    split; [by rewrite <- marks_task_events, Et|].
    split.
    { apply task_events_In. rewrite Et. do 7 right. by left. }
    cbv zeta. cbn [logged trace].
    destruct (open_error P _) as [e|].
    + left. by exists e.
    + right. destruct (write_error P _ _) as [[e partial]|].
      * left. by exists e, partial.
      * right. by repeat split.
  - left. by exists e.
Qed.

(** The [try] block seen from outside: a proposal on disk and on
    screen, or the two messages.  In the latter case the files are as
    they were, unless it was the write that failed: then the path of
    the proposal holds what the write left there. *)
Lemma display_outcome (system : AIProposalSystem.t) (company_name : string)
  (w : World) :
  let w3 := logged w ([EvUI (progress 0); EvUI empty] ++ progress_updates) in
  let gp := AIProposalSystem.generate_proposal P system company_name w3 in
  let handled :=
    try_except (run_and_display P system company_name) report_failure w in
  exists d, Forall is_pipeline d /\
    ((exists e w4,
        gp = (Raise e, w4) /\
        handled = (Ret None, logged w4 (failure_report e)) /\
        (w4 = logged w3 (generate_call :: d) \/
         exists result partial,
           marks d = stage_order /\
           In (EvTaskEnd proposal_role result) d /\
           let path :=
             AIProposalSystem.filename_of company_name
               (strftime (wall_clock P (trace w3 ++ generate_call :: d))) in
           open_error P path = None /\
           write_error P path result = Some (e, partial) /\
           w4 = store (logged w3 (generate_call :: d)) path partial)) \/
     (exists path result,
        In (EvTaskEnd proposal_role result) d /\
        let w4 :=
          store (logged w3 (generate_call :: d)) path
            (newlines_out (linesep P) result) in
        gp = (Ret path, w4) /\
        handled
          = (Ret (Some (read_back P result)),
             logged w4 (proposal_display (read_back P result) path)))).
Proof.
  intros w3 gp handled. unfold handled. rewrite display_eq. fold w3. fold gp.
  destruct (generate_proposal_outcome system company_name w3)
    as (d & Fd & [(e & _ & Hrun)|(result & _ & Hm & Hin & Hwrite)]);
    fold gp in Hrun || fold gp in Hwrite.
  - exists d. split; [exact Fd|]. left. eexists e, _.
    split; [exact Hrun|]. rewrite Hrun. split; [reflexivity|]. by left.
  - cbv zeta in Hwrite.
    destruct Hwrite as [(e & _ & Hrun)|
                        [(e & partial & Hopen & Hwr & Hrun)|
                         (_ & _ & Hrun)]].
    + exists d. split; [exact Fd|]. left. eexists e, _.
      split; [exact Hrun|]. rewrite Hrun. split; [reflexivity|]. by left.
    + exists d. split; [exact Fd|]. left. eexists e, _.
      split; [exact Hrun|]. rewrite Hrun. split; [reflexivity|].
      right. exists result, partial. by repeat split.
    + exists d. split; [exact Fd|]. right. eexists _, result.
      split; [exact Hin|]. cbv zeta. split; [exact Hrun|].
      rewrite Hrun. cbn [store files]. rewrite lookup_insert_eq.
      reflexivity.
Qed.
End OutcomeFacts.

Section HandlerFacts.
Context (P : Providers).

(** [AIProposalSystem()] at the point where the handler calls it. *)
Lemma init_at_keyed_world (s : Session) (w : World) :
  AIProposalSystem.__init__ P (keyed_world s w) =
    match chat_openai_error P (Some (openai_key_field s)) with
    | Some e =>
        (Raise e,
         logged (keyed_world s w)
           [EvCall "AIProposalSystem"; EvCall "ChatOpenAI"])
    | None =>
        match tavily_client_error P (Some (tavily_key_field s)) with
        | Some e => (Raise e, logged (keyed_world s w) setup_calls)
        | None => (Ret (system_of s), logged (keyed_world s w) setup_calls)
        end
    end.
Proof.
  rewrite init_run. cbn [keyed_world environ].
  rewrite keyed_environ_openai, keyed_environ_tavily. reflexivity.
Qed.

(** A triggered run whose constructors accept the keys: the handler
    either reports a failure or displays the proposal it wrote. *)
Lemma main_triggered_outcome (s : Session) (w : World) :
  openai_key_field s <> "" -> tavily_key_field s <> "" ->
  kaggle_key_field s <> "" ->
  company_name_field s <> "" ->
  button_clicked s = true ->
  chat_openai_error P (Some (openai_key_field s)) = None ->
  tavily_client_error P (Some (tavily_key_field s)) = None ->
  let w0 := entry_world s w in
  let gp :=
    AIProposalSystem.generate_proposal P (system_of s)
      (company_name_field s) w0 in
  exists d, Forall is_pipeline d /\
    ((exists e w4,
        gp = (Raise e, w4) /\
        main P s w
          = (Ret tt, logged w4 (failure_report e ++ idle_footer)) /\
        (w4 = logged w0 (generate_call :: d) \/
         exists result partial,
           marks d = stage_order /\
           In (EvTaskEnd proposal_role result) d /\
           let path :=
             AIProposalSystem.filename_of (company_name_field s)
               (strftime (wall_clock P (trace w0 ++ generate_call :: d))) in
           open_error P path = None /\
           write_error P path result = Some (e, partial) /\
           w4 = store (logged w0 (generate_call :: d)) path partial)) \/
     (exists path result,
        In (EvTaskEnd proposal_role result) d /\
        let w4 :=
          store (logged w0 (generate_call :: d)) path
            (newlines_out (linesep P) result) in
        gp = (Ret path, w4) /\
        main P s w
          = (Ret tt,
             logged w4 (proposal_display (read_back P result) path
                        ++ metrics_footer)))).
Proof.
  intros H1 H2 H3 Hcompany Hclick Hopenai Htavily w0 gp.
  rewrite (main_triggered_eq P s w H1 H2 H3 Hcompany Hclick).
  rewrite init_at_keyed_world, Hopenai, Htavily.
  set (w2 := logged (logged (keyed_world s w) setup_calls)
               [EvUI (spinner "Generating AI/ML proposal...")]).
  assert (logged w2 ([EvUI (progress 0); EvUI empty] ++ progress_updates)
          = w0) as Hw0.
  { unfold w2, w0, entry_world. rewrite !logged_logged. reflexivity. }
  destruct (display_outcome P (system_of s) (company_name_field s) w2)
    as (d & Fd & Hcase).
  cbv zeta in Hcase. rewrite Hw0 in Hcase. fold gp in Hcase.
  exists d. split; [exact Fd|].
  destruct Hcase as [(e & w4 & Hgp & Hrun & Hw4)|
                     (path & result & Hin & Hgp & Hrun)].
  - left. exists e, w4. split; [exact Hgp|]. split; [|exact Hw4].
    by rewrite (bind_run _ _ _ _ _ Hrun), render_metrics_none, logged_logged.
  - right. exists path, result. split; [exact Hin|].
    cbv zeta. split; [exact Hgp|].
    by rewrite (bind_run _ _ _ _ _ Hrun), render_metrics_some, logged_logged.
Qed.

(** Whatever happens in a triggered run, the keys stay in the
    environment and the trace goes on from the rendered form. *)
Lemma main_triggered_world (s : Session) (w : World) :
  openai_key_field s <> "" -> tavily_key_field s <> "" ->
  kaggle_key_field s <> "" ->
  company_name_field s <> "" ->
  button_clicked s = true ->
  exists fs d,
    snd (main P s w)
      = {| environ := keyed_environ s (environ w); files := fs;
           trace := trace w ++ form_events true ++ d |} /\
    Forall (fun ev => forall label disabled,
              ev <> EvUI (button label disabled)) d.
Proof.
  intros H1 H2 H3 Hcompany Hclick.
  destruct (chat_openai_error P (Some (openai_key_field s))) as [e|]
    eqn:Hopenai;
    [|destruct (tavily_client_error P (Some (tavily_key_field s))) as [e|]
        eqn:Htavily].
  - rewrite (main_triggered_eq P s w H1 H2 H3 Hcompany Hclick).
    rewrite init_at_keyed_world, Hopenai.
    eexists _, _. split; [unfold snd, logged, keyed_world;
                          cbn [environ files trace];
                          rewrite <- app_assoc; reflexivity|].
    repeat constructor; discriminate.
  - rewrite (main_triggered_eq P s w H1 H2 H3 Hcompany Hclick).
    rewrite init_at_keyed_world, Hopenai, Htavily.
    eexists _, _. split; [unfold snd, logged, keyed_world;
                          cbn [environ files trace];
                          rewrite <- app_assoc; reflexivity|].
    repeat constructor; discriminate.
  - destruct (main_triggered_outcome s w H1 H2 H3 Hcompany Hclick
                Hopenai Htavily) as (d & Fd & Hcase).
    cbv zeta in Hcase.
    assert (Forall (fun ev => forall label disabled,
                      ev <> EvUI (button label disabled)) d) as Fb.
    { eapply Forall_impl; [exact Fd|].
      intros ev Hev label disabled ->. exact Hev. }
    assert (forall tail,
              Forall (fun ev => forall label disabled,
                        ev <> EvUI (button label disabled)) tail ->
              Forall (fun ev => forall label disabled,
                        ev <> EvUI (button label disabled))
                (setup_calls
                 ++ [EvUI (spinner "Generating AI/ML proposal...");
                     EvUI (progress 0); EvUI empty]
                 ++ progress_updates ++ generate_call :: d ++ tail)) as Fall.
    { intros tail Ft.
      repeat match goal with
             | |- Forall _ (_ :: _) => constructor; [discriminate|]
             | |- Forall _ (_ ++ _) => apply Forall_app; split
             | |- Forall _ [] => constructor
             | |- Forall _ d => exact Fb
             | |- Forall _ tail => exact Ft
             | |- Forall _ _ => solve [repeat constructor; discriminate]
             end. }
    destruct Hcase as [(e & w4 & _ & -> & Hw4)|(path & result & _ & _ & ->)].
    + destruct Hw4 as [->|(result & partial & _ & _ & _ & _ & ->)].
      * eexists _, _. split.
        -- unfold snd, entry_world, logged, keyed_world.
           cbn [environ files trace]. rewrite <- !app_assoc. reflexivity.
        -- apply Fall. repeat constructor; discriminate.
      * eexists _, _. split.
        -- unfold snd, entry_world, store, logged, keyed_world.
           cbn [environ files trace]. rewrite <- !app_assoc. reflexivity.
        -- apply Fall. repeat constructor; discriminate.
    + eexists _, _. split.
      * unfold snd, entry_world, store, logged, keyed_world.
        cbn [environ files trace]. rewrite <- !app_assoc. reflexivity.
      * repeat match goal with
               | |- Forall _ (_ :: _) => constructor; [discriminate|]
               | |- Forall _ (_ ++ _) => apply Forall_app; split
               | |- Forall _ [] => constructor
               | |- Forall _ d => exact Fb
               | |- Forall _ _ => solve [repeat constructor; discriminate]
               end.
Qed.
End HandlerFacts.

(** X1.  A run of the script in which the button was not clicked only
    renders: the form (with the warning and the disabled button when a
    key is missing) and the footer.  Nothing is stored in the
    environment, no file changes, nothing is constructed or sent. *)
Theorem idle_rerun_renders_only (P : Providers) (s : Session) (w : World) :
  button_clicked s = false ->
  main P s w =
    (Ret tt,
     logged w
       (form_events (all [openai_key_field s; tavily_key_field s;
                          kaggle_key_field s])
        ++ idle_footer)).
Proof.
  intros Hclick.
  destruct (all [openai_key_field s; tavily_key_field s; kaggle_key_field s])
    eqn:Hall.
  - unfold main, st_text_input, st_button.
    do 12 step. rewrite Hall. cbn [negb].
    repeat step. rewrite Hclick. cbn [negb andb].
    unfold render_metrics. repeat step.
    rewrite st_logged, !logged_logged. reflexivity.
  - by apply main_blocked.
Qed.

Lemma idle_rerun_renders_only_witness :
  let P := stub echo_search fixed_script (fun _ => true) in
  main P session_idle world0
    = (Ret tt, logged world0 (form_events true ++ idle_footer)).
Proof.
  intros P. apply (idle_rerun_renders_only P session_idle world0).
  reflexivity.
Defined.

(** X2.  [AIProposalSystem()] is called before the [try]: when the
    constructor of either client raises, the exception leaves [main]
    uncaught.  By then the three keys are already in the environment;
    after the form only constructor entries are in the trace, so no
    error message is rendered and the pipeline is not entered. *)
Theorem constructor_rejection_escapes_handler (P : Providers) (s : Session)
  (w : World) (e : exn) :
  openai_key_field s <> "" -> tavily_key_field s <> "" ->
  kaggle_key_field s <> "" ->
  company_name_field s <> "" ->
  button_clicked s = true ->
  chat_openai_error P (Some (openai_key_field s)) = Some e \/
  (chat_openai_error P (Some (openai_key_field s)) = None /\
   tavily_client_error P (Some (tavily_key_field s)) = Some e) ->
  exists d,
    main P s w = (Raise e, logged (keyed_world s w) d) /\
    Forall is_setup_call d /\
    environ (snd (main P s w)) = keyed_environ s (environ w) /\
    files (snd (main P s w)) = files w.
Proof.
  intros H1 H2 H3 Hcompany Hclick Hreject.
  rewrite (main_triggered_eq P s w H1 H2 H3 Hcompany Hclick).
  rewrite init_at_keyed_world.
  destruct Hreject as [->|[-> ->]].
  - eexists. split; [reflexivity|]. split; [|split; reflexivity].
    repeat constructor; discriminate.
  - eexists. split; [reflexivity|]. split; [|split; reflexivity].
    repeat constructor; discriminate.
Qed.

Lemma constructor_rejection_escapes_handler_witness :
  let P := with_constructors (stub echo_search fixed_script (fun _ => true))
             accepts_key rejects_key in
  fst (main P session_ready world0)
    = Raise (Exception "Incorrect API key provided") /\
  environ (snd (main P session_ready world0)) !! "OPENAI_API_KEY"
    = Some "sk-key".
Proof.
  intros P.
  destruct (constructor_rejection_escapes_handler P session_ready world0
              (Exception "Incorrect API key provided")
              ltac:(discriminate) ltac:(discriminate) ltac:(discriminate)
              ltac:(discriminate) eq_refl
              (or_intror (conj eq_refl eq_refl)))
    as (d & E & _ & Henv & _).
  rewrite Henv, E. split; [reflexivity|].
  apply keyed_environ_openai.
Defined.

(** X3.  When [generate_proposal] raises inside the [try], whatever the
    cause, [main] still returns normally: it renders "An error
    occurred: <message>" and "Please check your API keys and try
    again", then the footer without metrics.  The files are the ones
    from before the run, with one exception: when it was the write
    that failed, after all four stages had finished and [open] had
    succeeded, the path of the proposal holds what the write left
    there, and an earlier file of that name is lost. *)
Theorem pipeline_failure_is_reported (P : Providers) (s : Session)
  (w : World) (e : exn) :
  openai_key_field s <> "" -> tavily_key_field s <> "" ->
  kaggle_key_field s <> "" ->
  company_name_field s <> "" ->
  button_clicked s = true ->
  chat_openai_error P (Some (openai_key_field s)) = None ->
  tavily_client_error P (Some (tavily_key_field s)) = None ->
  fst (AIProposalSystem.generate_proposal P (system_of s)
         (company_name_field s) (entry_world s w)) = Raise e ->
  exists d fs,
    main P s w
      = (Ret tt,
         {| environ := keyed_environ s (environ w);
            files := fs;
            trace :=
              trace (entry_world s w) ++ generate_call :: d
              ++ [EvUI (error ("An error occurred: " +:+ str e));
                  EvUI (error "Please check your API keys and try again")]
              ++ idle_footer |}) /\
    Forall is_pipeline d /\
    (fs = files w \/
     exists result partial,
       marks d = stage_order /\
       In (EvTaskEnd proposal_role result) d /\
       let path :=
         AIProposalSystem.filename_of (company_name_field s)
           (strftime
              (wall_clock P (trace (entry_world s w) ++ generate_call :: d)))
       in
       open_error P path = None /\
       write_error P path result = Some (e, partial) /\
       fs = <[path := partial]> (files w)).
Proof.
  intros H1 H2 H3 Hcompany Hclick Hopenai Htavily Hgp.
  destruct (main_triggered_outcome P s w H1 H2 H3 Hcompany Hclick
              Hopenai Htavily) as (d & Fd & Hcase).
  cbv zeta in Hcase.
  destruct Hcase as [(e' & w4 & Hrun & Hmain & Hw4)|
                     (path & result & _ & Hrun & _)];
    rewrite Hrun in Hgp; [|discriminate Hgp].
  injection Hgp as ->.
  exists d. rewrite Hmain.
  destruct Hw4 as [->|(result & partial & Hm & Hin & Hopen & Hwr & ->)].
  - exists (files w). split; [|split; [exact Fd|by left]].
    unfold logged, entry_world, keyed_world. cbn [environ files trace].
    by rewrite <- !app_assoc.
  - eexists. split; [|split; [exact Fd|]].
    + unfold store, logged, entry_world, keyed_world.
      cbn [environ files trace]. by rewrite <- !app_assoc.
    + right. exists result, partial. by repeat split.
Qed.

Lemma pipeline_failure_is_reported_witness :
  let P := with_host (stub echo_search fixed_script (fun _ => true))
             unencodable posix_linesep in
  let e := Exception "'ascii' codec can't encode character" in
  exists d fs,
    main P session_ready world0
      = (Ret tt,
         {| environ := keyed_environ session_ready (environ world0);
            files := fs;
            trace :=
              trace (entry_world session_ready world0) ++ generate_call :: d
              ++ [EvUI (error ("An error occurred: " +:+ str e));
                  EvUI (error "Please check your API keys and try again")]
              ++ idle_footer |}) /\
    Forall is_pipeline d /\
    (fs = files world0 \/
     exists result partial,
       marks d = stage_order /\
       In (EvTaskEnd proposal_role result) d /\
       let path :=
         AIProposalSystem.filename_of (company_name_field session_ready)
           (strftime
              (wall_clock P
                 (trace (entry_world session_ready world0)
                  ++ generate_call :: d)))
       in
       open_error P path = None /\
       write_error P path result = Some (e, partial) /\
       fs = <[path := partial]> (files world0)).
Proof.
  intros P e.
  assert (fst (AIProposalSystem.generate_proposal P
                 (system_of session_ready)
                 (company_name_field session_ready)
                 (entry_world session_ready world0))
          = Raise e) as Hgp
    by (vm_compute; reflexivity).
  exact (pipeline_failure_is_reported P session_ready world0 e
           ltac:(discriminate) ltac:(discriminate) ltac:(discriminate)
           ltac:(discriminate) eq_refl eq_refl eq_refl Hgp).
Defined.

(** X4.  When [generate_proposal] returns a path inside the [try],
    reading the file back does not fail.  The file at that path holds
    the output of the proposal stage as text mode stores it, no other
    file has changed, and what [main] renders, as Markdown and as the
    data of the download button offered under the path that was
    written, is that text as text mode reads it back, followed by the
    metrics panel.  What is rendered never contains a carriage
    return: for an output without carriage returns it is the output
    itself, otherwise it differs from the output, each line end of
    the file having been read as a line feed. *)
Theorem saved_proposal_is_displayed (P : Providers) (s : Session)
  (w : World) (path : string) :
  openai_key_field s <> "" -> tavily_key_field s <> "" ->
  kaggle_key_field s <> "" ->
  company_name_field s <> "" ->
  button_clicked s = true ->
  chat_openai_error P (Some (openai_key_field s)) = None ->
  tavily_client_error P (Some (tavily_key_field s)) = None ->
  fst (AIProposalSystem.generate_proposal P (system_of s)
         (company_name_field s) (entry_world s w)) = Ret path ->
  exists result d,
    fst (main P s w) = Ret tt /\
    files (snd (main P s w))
      = <[path := newlines_out (linesep P) result]> (files w) /\
    In (EvTaskEnd proposal_role result) d /\
    trace (snd (main P s w))
      = trace (entry_world s w) ++ generate_call :: d
        ++ [ EvUI (markdown "### Generated AI/ML Proposal");
             EvUI (markdown (read_back P result));
             EvUI (download_button "Download Proposal" (read_back P result)
                     path "text/markdown") ]
        ++ metrics_footer /\
    cr_free (read_back P result) = true /\
    (linesep P = posix_linesep \/ linesep P = windows_linesep ->
     cr_free result = true -> read_back P result = result).
Proof.
  intros H1 H2 H3 Hcompany Hclick Hopenai Htavily Hgp.
  destruct (main_triggered_outcome P s w H1 H2 H3 Hcompany Hclick
              Hopenai Htavily) as (d & Fd & Hcase).
  cbv zeta in Hcase.
  destruct Hcase as [(e & w4 & Hrun & _)|
                     (path' & result & Hin & Hrun & Hmain)];
    rewrite Hrun in Hgp; [discriminate Hgp|].
  injection Hgp as ->.
  exists result, d. rewrite Hmain.
  split; [reflexivity|]. split; [reflexivity|]. split; [exact Hin|].
  split; [|split; [apply universal_newlines_no_cr|apply read_back_cr_free]].
  unfold snd, store, logged, proposal_display. cbn [trace].
  by rewrite <- !app_assoc.
Qed.

Lemma saved_proposal_is_displayed_witness :
  let P := stub echo_search carriage_return_script (fun _ => true) in
  let path := "ai_proposal_Acme_20240309_120007.md" in
  exists result,
    files (snd (main P session_ready world0))
      = <[path := newlines_out posix_linesep result]> ∅ /\
    In (EvUI (download_button "Download Proposal" (read_back P result) path
                "text/markdown"))
       (trace (snd (main P session_ready world0))).
Proof.
  intros P path.
  assert (fst (AIProposalSystem.generate_proposal P
                 (system_of session_ready)
                 (company_name_field session_ready)
                 (entry_world session_ready world0))
          = Ret path) as Hgp
    by (vm_compute; reflexivity).
  destruct (saved_proposal_is_displayed P session_ready world0 path
              ltac:(discriminate) ltac:(discriminate) ltac:(discriminate)
              ltac:(discriminate) eq_refl eq_refl eq_refl Hgp)
    as (result & d & _ & F & _ & T & _ & _).
  exists result. split; [exact F|].
  rewrite T. apply in_or_app. right. right. apply in_or_app. right.
  right. right. by left.
Defined.

(** X5.  Once the handler has got past the company-name check, the
    three keys from the form are in [os.environ] and stay there: they
    are still set when [main] returns or raises, whether the run
    succeeded, failed or never got past a constructor. *)
Theorem keys_persist_in_environment (P : Providers) (s : Session)
  (w : World) :
  openai_key_field s <> "" -> tavily_key_field s <> "" ->
  kaggle_key_field s <> "" ->
  company_name_field s <> "" ->
  button_clicked s = true ->
  environ (snd (main P s w))
    = <["KAGGLE_API_TOKEN" := kaggle_key_field s]>
        (<["TAVILY_API_KEY" := tavily_key_field s]>
           (<["OPENAI_API_KEY" := openai_key_field s]> (environ w))).
Proof.
  intros H1 H2 H3 Hcompany Hclick.
  destruct (main_triggered_world P s w H1 H2 H3 Hcompany Hclick)
    as (fs & d & -> & _).
  reflexivity.
Qed.

Lemma keys_persist_in_environment_witness :
  let P := stub raising_search failing_market_script (fun _ => false) in
  environ (snd (main P session_ready world0)) !! "KAGGLE_API_TOKEN"
    = Some "kg-key".
Proof.
  intros P.
  rewrite (keys_persist_in_environment P session_ready world0
             ltac:(discriminate) ltac:(discriminate) ltac:(discriminate)
             ltac:(discriminate) eq_refl).
  reflexivity.
Defined.

(** X6.  Every run of the script renders the same form first, and the
    run button exactly once: disabled if and only if one of the three
    key fields is empty.  No other check is made on the keys. *)
Theorem button_enabled_iff_keys_present (P : Providers) (s : Session)
  (w : World) :
  let valid :=
    all [openai_key_field s; tavily_key_field s; kaggle_key_field s] in
  (valid = true <->
   openai_key_field s <> "" /\ tavily_key_field s <> "" /\
   kaggle_key_field s <> "") /\
  exists rest,
    trace (snd (main P s w)) = trace w ++ form_events valid ++ rest /\
    Forall (fun ev => forall label disabled,
              ev <> EvUI (button label disabled)) rest.
Proof.
  intros valid. split.
  - unfold valid, all. simpl.
    destruct (openai_key_field s), (tavily_key_field s),
      (kaggle_key_field s); simpl; split; try done;
      intros (? & ? & ?); done.
  - destruct valid eqn:Hall.
    + destruct (button_clicked s) eqn:Hclick.
      * assert (openai_key_field s <> "" /\ tavily_key_field s <> "" /\
                kaggle_key_field s <> "") as (H1 & H2 & H3).
        { unfold valid, all in Hall. simpl in Hall.
          destruct (openai_key_field s), (tavily_key_field s),
            (kaggle_key_field s); simpl in Hall; try discriminate Hall;
            done. }
        destruct (company_name_field s) as [|c company] eqn:Hcompany.
        -- rewrite (main_no_company P s w Hall Hcompany Hclick).
           eexists. split; [cbn [snd logged trace]; reflexivity|].
           repeat constructor; discriminate.
        -- destruct (main_triggered_world P s w H1 H2 H3) as
             (fs & d & -> & Fd); [by rewrite Hcompany|exact Hclick|].
           by exists d.
      * assert (main P s w
                = (Ret tt, logged w (form_events true ++ idle_footer)))
          as ->.
        { unfold main, st_text_input, st_button.
          do 12 step. fold valid. rewrite Hall. cbn [negb].
          repeat step. rewrite Hclick. cbn [negb andb].
          unfold render_metrics. repeat step.
          rewrite st_logged, !logged_logged. reflexivity. }
        eexists. split; [cbn [snd logged trace]; reflexivity|].
        repeat constructor; discriminate.
    + rewrite (main_blocked P s w Hall).
      eexists. split; [cbn [snd logged trace]; reflexivity|].
      repeat constructor; discriminate.
Qed.

(** ** Requests under a fixed environment *)

Section EmitsUnder.
Context (env_ok : gmap string string -> Prop) (ok : Event -> Prop).

Lemma under_ret {A} (a : A) : emits_under env_ok ok (ret a).
Proof. intros w _. exists []. simpl. by rewrite logged_nil. Qed.

Lemma under_raise {A} (e : exn) : emits_under env_ok ok (@raise A e).
Proof. intros w _. exists []. simpl. by rewrite logged_nil. Qed.

Lemma under_emit (ev : Event) : ok ev -> emits_under env_ok ok (emit ev).
Proof. intros H w _. exists [ev]. split; [reflexivity|]. by constructor. Qed.

Lemma under_bind {A B} (m : M A) (k : A -> M B) :
  emits_under env_ok ok m -> (forall a, emits_under env_ok ok (k a)) ->
  emits_under env_ok ok (bind m k).
Proof.
  intros Hm Hk w Hw. destruct (Hm w Hw) as (d1 & E1 & F1). unfold bind.
  destruct (m w) as [[a|e] w1]; simpl in E1; subst w1.
  - destruct (Hk a (logged w d1) Hw) as (d2 & E2 & F2).
    exists (d1 ++ d2). rewrite E2, logged_logged.
    split; [reflexivity|]. apply Forall_app. by split.
  - by exists d1.
Qed.
End EmitsUnder.

Section RequestsUnder.
Context (P : Providers).
Context (env_ok : gmap string string -> Prop) (ok : Event -> Prop).

Lemma call_tool_under (tools : list Tool.t) (tool_name query : string) :
  Forall (fun t => forall q, emits_under env_ok ok (Tool.func t q)) tools ->
  emits_under env_ok ok (call_tool P tools tool_name query).
Proof.
  intros Htools. unfold call_tool.
  destruct (find _ tools) as [t|] eqn:Hfind.
  - apply find_some in Hfind as [Hin _].
    rewrite Forall_forall in Htools. apply Htools.
    by apply list_elem_of_In.
  - apply under_ret.
Qed.

Lemma run_agent_under (a : Agent.t) (r : AgentRun) :
  ok (EvNet (ChatCompletion (Agent.role a))) ->
  Forall (fun t => forall q, emits_under env_ok ok (Tool.func t q))
    (Agent.tools a) ->
  emits_under env_ok ok (run_agent P a r).
Proof.
  intros Hchat Ha. induction r as [output|e|tool_name query k IH]; simpl.
  - apply under_bind; [by apply under_emit|]. intros _. apply under_ret.
  - apply under_bind; [by apply under_emit|]. intros _. apply under_raise.
  - apply under_bind; [by apply under_emit|]. intros _.
    apply under_bind; [by apply call_tool_under|]. exact IH.
Qed.

Lemma execute_under (task : Task.t) (context : string) :
  (forall role text, ok (EvTaskStart role text) /\ ok (EvTaskEnd role text)) ->
  ok (EvNet (ChatCompletion (Agent.role (Task.agent task)))) ->
  Forall (fun t => forall q, emits_under env_ok ok (Tool.func t q))
    (Agent.tools (Task.agent task)) ->
  emits_under env_ok ok (execute P task context).
Proof.
  intros Hmarks Hchat Ha. unfold execute. cbv zeta.
  apply under_bind; [apply under_emit, Hmarks|]. intros _.
  apply under_bind; [by apply run_agent_under|]. intros output.
  apply under_bind; [apply under_emit, Hmarks|]. intros _.
  apply under_ret.
Qed.

Lemma run_tasks_under (tasks : list Task.t) (ctx : RunContext) :
  (forall role text, ok (EvTaskStart role text) /\ ok (EvTaskEnd role text)) ->
  (forall role, ok (EvNet (ChatCompletion role))) ->
  Forall (fun task =>
            Forall (fun t => forall q,
                      emits_under env_ok ok (Tool.func t q))
              (Agent.tools (Task.agent task))) tasks ->
  emits_under env_ok ok (run_tasks P tasks ctx).
Proof.
  intros Hmarks Hchat Htasks. revert ctx.
  induction Htasks as [|task tasks Htask _ IH]; intros ctx; simpl.
  - apply under_ret.
  - apply under_bind; [by apply execute_under|]. intros output. apply IH.
Qed.

Lemma tavily_search_under (self : Tools.t) (query : string) :
  ok (EvNet (TavilySearch (TavilyClient.api_key (Tools.tavily_client self))
               query)) ->
  emits_under env_ok ok (Tools.tavily_search P self query).
Proof.
  intros Hok w _. rewrite tavily_search_run. eexists.
  split; [reflexivity|]. by repeat constructor.
Qed.

Lemma search_kaggle_under (self : Tools.t) (query : string) :
  (forall env, env_ok env ->
     ok (EvNet (HttpGet (Tools.kaggle_endpoint +:+ query)
                  [("Authorization",
                    "Bearer " +:+ fmt_opt (env !! "KAGGLE_API_TOKEN"))]))) ->
  emits_under env_ok ok (Tools.search_kaggle P self query).
Proof.
  intros Hok w Hw. rewrite search_kaggle_run. eexists.
  split; [reflexivity|]. constructor; [by apply Hok|constructor].
Qed.

Lemma search_huggingface_under (self : Tools.t) (query : string) :
  ok (EvNet (HttpGet (Tools.huggingface_endpoint +:+ query) [])) ->
  emits_under env_ok ok (Tools.search_huggingface P self query).
Proof.
  intros Hok w _. rewrite search_huggingface_run. eexists.
  split; [reflexivity|]. by repeat constructor.
Qed.
End RequestsUnder.

Section CrewRequests.
Context (P : Providers).

(** The tools of the crew built for the form's keys, run in an
    environment that holds the dataset key, send requests with those
    keys. *)
Lemma crew_carries_keys (s : Session) (company_name : string) :
  Forall (fun task =>
            Forall (fun t => forall q,
                      emits_under
                        (fun env => env !! "KAGGLE_API_TOKEN"
                                    = Some (kaggle_key_field s))
                        (carries_keys s) (Tool.func t q))
              (Agent.tools (Task.agent task)))
    (Crew.tasks (AIProposalSystem.crew_of P (system_of s) company_name)).
Proof.
  repeat constructor; intros q; simpl.
  - by apply tavily_search_under.
  - by apply tavily_search_under.
  - apply search_kaggle_under. intros env ->. left.
    split; [by exists q|reflexivity].
  - apply search_huggingface_under. right. split; [by exists q|reflexivity].
Qed.

Lemma generate_proposal_carries_keys (s : Session) (company_name : string)
  (w : World) :
  environ w !! "KAGGLE_API_TOKEN" = Some (kaggle_key_field s) ->
  exists d,
    trace (snd (AIProposalSystem.generate_proposal P (system_of s)
                  company_name w))
      = trace w ++ generate_call :: d /\
    Forall (carries_keys s) d.
Proof.
  intros Henv. rewrite generate_proposal_eq.
  destruct (run_tasks_under P _ (carries_keys s)
              (Crew.tasks (AIProposalSystem.crew_of P (system_of s)
                             company_name)) []
              (fun _ _ => conj I I) (fun _ => I)
              (crew_carries_keys s company_name)
              (logged w [generate_call]) Henv) as (d & Es & Fd).
  exists d. split; [|exact Fd].
  unfold kickoff.
  change (Crew.process _) with sequential. cbv iota. unfold bind at 1.
  destruct (run_tasks P _ [] (logged w [generate_call])) as [[ctx|e] w1];
    unfold snd in Es; subst w1.
  - unfold ret. cbv zeta.
    destruct (open_error P _);
      [|destruct (write_error P _ _) as [[e partial]|]];
      cbn [snd store logged trace]; by rewrite <- app_assoc.
  - cbn [snd logged trace]. by rewrite <- app_assoc.
Qed.

(** Each stage of the crew keeps to its own tools. *)
Lemma crew_stage_tools (self : AIProposalSystem.t) (company_name : string)
  (stage : nat) (task : Task.t) :
  Crew.tasks (AIProposalSystem.crew_of P self company_name) !! stage
    = Some task ->
  Forall (fun t => forall q,
            emits_under (fun _ => True) (stage_may stage) (Tool.func t q))
    (Agent.tools (Task.agent task)).
Proof.
  intros Hstage.
  destruct stage as [|[|[|[|stage]]]]; simpl in Hstage;
    try discriminate Hstage; injection Hstage as <-;
    repeat constructor; intros q; simpl.
  - apply tavily_search_under. simpl. by left.
  - apply tavily_search_under. simpl. by right.
  - apply search_kaggle_under. intros env _. simpl.
    split; [reflexivity|]. exists q. by left.
  - apply search_huggingface_under. simpl.
    split; [reflexivity|]. exists q. by right.
Qed.
End CrewRequests.

(** X7.  In a triggered run every search request that goes out carries
    the credentials typed into the form: each web search is made with
    the search key, each Kaggle request has the dataset key as its
    bearer token, and each HuggingFace request has no header. *)
Theorem requests_carry_form_keys (P : Providers) (s : Session) (w : World) :
  openai_key_field s <> "" -> tavily_key_field s <> "" ->
  kaggle_key_field s <> "" ->
  company_name_field s <> "" ->
  button_clicked s = true ->
  chat_openai_error P (Some (openai_key_field s)) = None ->
  tavily_client_error P (Some (tavily_key_field s)) = None ->
  exists d,
    trace (snd (main P s w)) = trace w ++ d /\
    Forall (carries_keys s) d.
Proof.
  intros H1 H2 H3 Hcompany Hclick Hopenai Htavily.
  destruct (main_triggered_outcome P s w H1 H2 H3 Hcompany Hclick
              Hopenai Htavily) as (d & _ & Hcase).
  cbv zeta in Hcase.
  destruct (generate_proposal_carries_keys P s (company_name_field s)
              (entry_world s w) (keyed_environ_kaggle s (environ w)))
    as (d' & Etr & Fd).
  assert (exists w4 tail,
            snd (AIProposalSystem.generate_proposal P (system_of s)
                   (company_name_field s) (entry_world s w)) = w4 /\
            main P s w = (Ret tt, logged w4 tail) /\
            Forall (carries_keys s) tail) as (w4 & tail & Hsnd & -> & Ft).
  { destruct Hcase as [(e & w4 & Hgp & Hmain & _)|
                       (path & result & _ & Hgp & Hmain)].
    - exists w4. eexists. rewrite Hgp.
      split; [reflexivity|]. split; [exact Hmain|].
      apply Forall_app. split; repeat constructor.
    - eexists _, _. rewrite Hgp.
      split; [reflexivity|]. split; [exact Hmain|].
      apply Forall_app. split; repeat constructor. }
  rewrite Hsnd in Etr. eexists. split.
  - cbn [snd logged trace]. rewrite Etr.
    cbn [logged trace entry_world keyed_world].
    rewrite <- !app_assoc. reflexivity.
  - repeat match goal with
           | |- Forall _ d' => exact Fd
           | |- Forall _ tail => exact Ft
           | |- Forall _ (_ :: _) => constructor; [exact I|]
           | |- Forall _ (_ ++ _) => apply Forall_app; split
           | |- Forall _ _ => solve [repeat constructor]
           end.
Qed.

Lemma requests_carry_form_keys_witness :
  let P := stub echo_search searching_script (fun _ => true) in
  In (EvNet (HttpGet
        "https://www.kaggle.com/api/v1/search/datasets?search=churn"
        [("Authorization", "Bearer kg-key")]))
     (trace (snd (main P session_ready world0))) /\
  exists d, trace (snd (main P session_ready world0)) = [] ++ d /\
            Forall (carries_keys session_ready) d.
Proof.
  intros P. split.
  - vm_compute. do 33 right. left. reflexivity.
  - exact (requests_carry_form_keys P session_ready world0
             ltac:(discriminate) ltac:(discriminate) ltac:(discriminate)
             ltac:(discriminate) eq_refl eq_refl eq_refl).
Defined.

(** X8.  While a stage executes, the only requests that go out are
    model requests and requests of the tools its agent was given: web
    searches in the research and market stages, Kaggle and HuggingFace
    requests in the resource stage, none in the proposal stage.
    Environment and files are not touched. *)
Theorem stages_use_only_their_tools (P : Providers)
  (self : AIProposalSystem.t) (company_name : string) (stage : nat)
  (task : Task.t) (context : string) (w : World) :
  Crew.tasks (AIProposalSystem.crew_of P self company_name) !! stage
    = Some task ->
  exists d,
    snd (execute P task context w) = logged w d /\
    Forall (stage_may stage) d.
Proof.
  intros Hstage.
  apply (execute_under P (fun _ => True) (stage_may stage) task context);
    [by intros; split| exact I | | exact I].
  exact (crew_stage_tools P self company_name stage task Hstage).
Qed.

Lemma stages_use_only_their_tools_witness :
  let P := stub raising_search searching_script (fun _ => true) in
  let task :=
    TaskFactory.create_resource_task
      (AgentFactory.create_resource_agent P
         (AIProposalSystem.agent_factory system0)) in
  exists d, snd (execute P task "RM" world0) = logged world0 d /\
            Forall (stage_may 2) d.
Proof.
  intros P task.
  exact (stages_use_only_their_tools P system0 "Acme" 2 task "RM" world0
           eq_refl).
Defined.

(** ** A model that always answers *)

Section AnsweringModel.
Context (P : Providers).

Lemma call_tool_returns (tools : list Tool.t) (tool_name query : string)
  (w : World) :
  Forall (fun t => forall q w0, exists text w1,
            Tool.func t q w0 = (Ret text, w1)) tools ->
  exists text w1, call_tool P tools tool_name query w = (Ret text, w1).
Proof.
  intros Htools. unfold call_tool.
  destruct (find _ tools) as [t|] eqn:Hfind.
  - apply find_some in Hfind as [Hin _].
    rewrite Forall_forall in Htools. apply Htools.
    by apply list_elem_of_In.
  - by eexists _, _.
Qed.

Lemma run_agent_returns (a : Agent.t) (r : AgentRun) (w : World) :
  Forall (fun t => forall q w0, exists text w1,
            Tool.func t q w0 = (Ret text, w1)) (Agent.tools a) ->
  answers r ->
  exists output w1, run_agent P a r w = (Ret output, w1).
Proof.
  intros Ha Hr. revert w.
  induction Hr as [output|tool_name query k _ IH]; intros w; simpl.
  - rewrite bind_emit. by eexists _, _.
  - rewrite bind_emit.
    destruct (call_tool_returns (Agent.tools a) tool_name query
                (logged w [EvNet (ChatCompletion (Agent.role a))]) Ha)
      as (text & w1 & Hcall).
    rewrite (bind_run _ _ _ _ _ Hcall). apply IH.
Qed.

Lemma run_tasks_returns (tasks : list Task.t) (ctx : RunContext)
  (w : World) :
  (forall llm prompt, answers (chat P llm prompt)) ->
  Forall (fun task =>
            Forall (fun t => forall q w0, exists text w1,
                      Tool.func t q w0 = (Ret text, w1))
              (Agent.tools (Task.agent task))) tasks ->
  exists ctx' w1, run_tasks P tasks ctx w = (Ret ctx', w1).
Proof.
  intros Hmodel Htasks. revert ctx w.
  induction Htasks as [|task tasks Htask _ IH]; intros ctx w; simpl.
  - by eexists _, _.
  - assert (exists output w1,
              execute P task (concat_outputs ctx) w = (Ret output, w1))
      as (output & w1 & Hexec).
    { unfold execute. cbv zeta. rewrite bind_emit.
      destruct (run_agent_returns (Task.agent task)
                  (chat P (Agent.llm (Task.agent task))
                     (prompt_of task (concat_outputs ctx)))
                  (logged w [EvTaskStart (Agent.role (Task.agent task))
                               (concat_outputs ctx)])
                  Htask (Hmodel _ _)) as (output & w1 & Hrun).
      rewrite (bind_run _ _ _ _ _ Hrun), bind_emit. by eexists _, _. }
    rewrite (bind_run _ _ _ _ _ Hexec). apply IH.
Qed.

Lemma crew_tools_return (self : AIProposalSystem.t) (company_name : string) :
  Forall (fun task =>
            Forall (fun t => forall q w0, exists text w1,
                      Tool.func t q w0 = (Ret text, w1))
              (Agent.tools (Task.agent task)))
    (Crew.tasks (AIProposalSystem.crew_of P self company_name)).
Proof.
  repeat constructor; intros q w0; simpl.
  - rewrite tavily_search_run. by eexists _, _.
  - rewrite tavily_search_run. by eexists _, _.
  - rewrite search_kaggle_run. by eexists _, _.
  - rewrite search_huggingface_run. by eexists _, _.
Qed.

Lemma kickoff_returns (self : AIProposalSystem.t) (company_name : string)
  (w : World) :
  (forall llm prompt, answers (chat P llm prompt)) ->
  exists result w1,
    kickoff P (AIProposalSystem.crew_of P self company_name) w
      = (Ret result, w1).
Proof.
  intros Hmodel. unfold kickoff.
  change (Crew.process _) with sequential. cbv iota.
  destruct (run_tasks_returns
              (Crew.tasks (AIProposalSystem.crew_of P self company_name))
              [] w Hmodel (crew_tools_return self company_name))
    as (ctx & w1 & Hrun).
  rewrite (bind_run _ _ _ _ _ Hrun). by eexists _, _.
Qed.
End AnsweringModel.

(** X9.  A failing search never fails the run of the crew: if the
    model's conduct always ends in an answer, then whatever the three
    search transports do (raise, return undecodable bodies), all four
    stages complete and [kickoff] returns the output of the proposal
    stage.  Only the model can make a stage raise. *)
Theorem search_failures_never_abort_crew (P : Providers)
  (self : AIProposalSystem.t) (company_name : string) (w : World) :
  (forall llm prompt, answers (chat P llm prompt)) ->
  exists result d,
    kickoff P (AIProposalSystem.crew_of P self company_name)
      (logged w [generate_call])
      = (Ret result, logged w (generate_call :: d)) /\
    marks d = stage_order /\
    In (EvTaskEnd proposal_role result) d.
Proof.
  intros Hmodel.
  destruct (kickoff_returns P self company_name (logged w [generate_call])
              Hmodel) as (result & w1 & Hkick).
  destruct (generate_proposal_outcome P self company_name w)
    as (d & _ & [(e & Hk & _)|(result' & Hk & Hm & Hin & _)]);
    rewrite Hkick in Hk; [discriminate Hk|].
  injection Hk as -> ->. exists result', d. by repeat split.
Qed.

Lemma answers_searching_script (role : string) :
  answers (searching_script role).
Proof.
  unfold searching_script, fixed_script.
  repeat destruct (String.eqb _ _); repeat constructor.
Qed.

Lemma search_failures_never_abort_crew_witness :
  let P := stub raising_search searching_script (fun _ => true) in
  exists result d,
    kickoff P (AIProposalSystem.crew_of P system0 "Acme")
      (logged world0 [generate_call])
      = (Ret result, logged world0 (generate_call :: d)) /\
    marks d = stage_order /\
    In (EvTaskEnd proposal_role result) d.
Proof.
  intros P.
  exact (search_failures_never_abort_crew P system0 "Acme" world0
           (fun _ prompt => answers_searching_script (prompt_role prompt))).
Defined.

(** X10.  When the crew has returned but the file cannot be opened,
    [generate_proposal] raises the error of [open]: all four stages
    have run to the end, yet no file is written and the result is not
    handed to the caller. *)
Theorem write_failure_loses_result (P : Providers)
  (self : AIProposalSystem.t) (company_name result : string)
  (w w1 : World) (e : exn) :
  kickoff P (AIProposalSystem.crew_of P self company_name)
    (logged w [generate_call]) = (Ret result, w1) ->
  open_error P
    (AIProposalSystem.filename_of company_name
       (strftime (wall_clock P (trace w1)))) = Some e ->
  AIProposalSystem.generate_proposal P self company_name w = (Raise e, w1) /\
  files w1 = files w /\
  exists d, trace w1 = trace w ++ generate_call :: d /\
            marks d = stage_order /\
            In (EvTaskEnd proposal_role result) d.
Proof.
  intros Hkick Hopen.
  destruct (generate_proposal_outcome P self company_name w)
    as (d & _ & [(e' & Hk & _)|(result' & Hk & Hm & Hin & _)]);
    rewrite Hkick in Hk; [discriminate Hk|].
  injection Hk as -> ->.
  rewrite generate_proposal_eq, Hkick. cbv zeta. rewrite Hopen.
  split; [reflexivity|]. split; [reflexivity|].
  exists d. by repeat split.
Qed.

Lemma write_failure_loses_result_witness :
  let P := stub echo_search fixed_script (fun _ => false) in
  let crewed := kickoff P (AIProposalSystem.crew_of P system0 "Acme")
                  (logged world0 [generate_call]) in
  let e := Exception
    "[Errno 13] Permission denied: 'ai_proposal_Acme_20240309_120007.md'" in
  AIProposalSystem.generate_proposal P system0 "Acme" world0
    = (Raise e, snd crewed) /\
  files (snd crewed) = files world0 /\
  exists d, trace (snd crewed) = trace world0 ++ generate_call :: d /\
            marks d = stage_order /\
            In (EvTaskEnd proposal_role "Final Proposal Text") d.
Proof.
  intros P crewed e.
  assert (crewed = (Ret "Final Proposal Text", snd crewed)) as Hkick
    by (vm_compute; reflexivity).
  exact (write_failure_loses_result P system0 "Acme"
           "Final Proposal Text" world0 (snd crewed) e Hkick eq_refl).
Defined.

(** X11.  End to end: with all keys and a company name in the form, the
    button clicked, constructors that accept the keys, a model whose
    conduct always ends in an answer, a directory in which every file
    can be opened and a host on which no write fails, the run returns;
    exactly one file has been written, holding the output of the
    proposal stage as text mode stores it, and the download button
    offers that text, as text mode reads it back, under that path.
    For an output without carriage returns what is offered is the
    output itself.  This holds even when every search fails. *)
Theorem answering_model_yields_download (P : Providers) (s : Session)
  (w : World) :
  openai_key_field s <> "" -> tavily_key_field s <> "" ->
  kaggle_key_field s <> "" ->
  company_name_field s <> "" ->
  button_clicked s = true ->
  chat_openai_error P (Some (openai_key_field s)) = None ->
  tavily_client_error P (Some (tavily_key_field s)) = None ->
  (forall llm prompt, answers (chat P llm prompt)) ->
  (forall path, open_error P path = None) ->
  (forall path content, write_error P path content = None) ->
  exists path result,
    fst (main P s w) = Ret tt /\
    files (snd (main P s w))
      = <[path := newlines_out (linesep P) result]> (files w) /\
    In (EvTaskEnd proposal_role result) (trace (snd (main P s w))) /\
    In (EvUI (download_button "Download Proposal" (read_back P result) path
                "text/markdown"))
       (trace (snd (main P s w))) /\
    (linesep P = posix_linesep \/ linesep P = windows_linesep ->
     cr_free result = true -> read_back P result = result).
Proof.
  intros H1 H2 H3 Hcompany Hclick Hopenai Htavily Hmodel Hwritable Hwrite.
  destruct (main_triggered_outcome P s w H1 H2 H3 Hcompany Hclick
              Hopenai Htavily) as (d & _ & Hcase).
  cbv zeta in Hcase.
  destruct Hcase as [(e & w4 & Hgp & _)|(path & result & Hin & _ & Hmain)].
  - exfalso.
    destruct (kickoff_returns P (system_of s) (company_name_field s)
                (logged (entry_world s w) [generate_call]) Hmodel)
      as (result & w1 & Hkick).
    rewrite generate_proposal_eq, Hkick in Hgp. cbv zeta in Hgp.
    rewrite Hwritable, Hwrite in Hgp. discriminate Hgp.
  - exists path, result. rewrite Hmain. cbn [fst snd store logged files trace].
    split; [reflexivity|]. split; [reflexivity|]. split; [|split].
    + apply in_or_app. left. apply in_or_app. right. right. exact Hin.
    + apply in_or_app. right. right. right. by left.
    + apply read_back_cr_free.
Qed.

Lemma answering_model_yields_download_witness :
  let P := stub raising_search searching_script (fun _ => true) in
  exists path result,
    fst (main P session_ready world0) = Ret tt /\
    files (snd (main P session_ready world0))
      = <[path := newlines_out (linesep P) result]> (files world0) /\
    In (EvTaskEnd proposal_role result)
       (trace (snd (main P session_ready world0))) /\
    In (EvUI (download_button "Download Proposal" (read_back P result) path
                "text/markdown"))
       (trace (snd (main P session_ready world0))) /\
    (linesep P = posix_linesep \/ linesep P = windows_linesep ->
     cr_free result = true -> read_back P result = result).
Proof.
  intros P.
  exact (answering_model_yields_download P session_ready world0
           ltac:(discriminate) ltac:(discriminate) ltac:(discriminate)
           ltac:(discriminate) eq_refl eq_refl eq_refl
           (fun _ prompt => answers_searching_script (prompt_role prompt))
           (fun _ => eq_refl) (fun _ _ => eq_refl)).
Defined.

(** ** Order of timestamps and file names *)

Lemma lex_assoc (a b c : comparison) : lex (lex a b) c = lex a (lex b c).
Proof. by destruct a. Qed.

Lemma digit_compare (n m : N) :
  Ascii.compare (digit n) (digit m) = (n mod 10 ?= m mod 10)%N.
Proof.
  unfold Ascii.compare, digit.
  assert (n mod 10 < 10)%N as Hn by (apply N.mod_lt; lia).
  assert (m mod 10 < 10)%N as Hm by (apply N.mod_lt; lia).
  rewrite !digit_code by assumption.
  clear Hn Hm. generalize (n mod 10)%N (m mod 10)%N. intros a b.
  destruct (N.compare_spec a b) as [H|H|H].
  - apply N.compare_eq_iff. lia.
  - apply N.compare_lt_iff. lia.
  - apply N.compare_gt_iff. lia.
Qed.

(** Comparing two numbers is comparing their tens, then their units. *)
Lemma compare_div_mod (n m : N) :
  lex (n / 10 ?= m / 10)%N (n mod 10 ?= m mod 10)%N = (n ?= m)%N.
Proof.
  pose proof (N.div_mod n 10 ltac:(lia)) as En.
  pose proof (N.div_mod m 10 ltac:(lia)) as Em.
  assert (n mod 10 < 10)%N as Hn by (apply N.mod_lt; lia).
  assert (m mod 10 < 10)%N as Hm by (apply N.mod_lt; lia).
  revert En Em Hn Hm.
  generalize (n / 10)%N (m / 10)%N (n mod 10)%N (m mod 10)%N.
  intros qn qm rn rm En Em Hn Hm. symmetry.
  destruct (N.compare_spec qn qm) as [Hq|Hq|Hq]; simpl.
  - destruct (N.compare_spec rn rm) as [Hr|Hr|Hr].
    + apply N.compare_eq_iff. lia.
    + apply N.compare_lt_iff. lia.
    + apply N.compare_gt_iff. lia.
  - apply N.compare_lt_iff. lia.
  - apply N.compare_gt_iff. lia.
Qed.

Lemma compare_cons (c1 c2 : ascii) (s1 s2 : string) :
  String.compare (String c1 s1) (String c2 s2)
    = lex (Ascii.compare c1 c2) (String.compare s1 s2).
Proof. simpl. by destruct (Ascii.compare c1 c2). Qed.

Lemma compare_prefix (p a b : string) :
  String.compare (p +:+ a) (p +:+ b) = String.compare a b.
Proof.
  induction p as [|c p IH]; [reflexivity|].
  rewrite !append_cons, compare_cons. unfold Ascii.compare.
  by rewrite N.compare_refl.
Qed.

Lemma compare_refl (r : string) : String.compare r r = Eq.
Proof.
  induction r as [|c r IH]; [reflexivity|].
  rewrite compare_cons, IH. unfold Ascii.compare.
  by rewrite N.compare_refl.
Qed.

Lemma pad2_compare (n m : N) (r1 r2 : string) :
  (n < 100)%N -> (m < 100)%N ->
  String.compare (pad2 n +:+ r1) (pad2 m +:+ r2)
    = lex (n ?= m)%N (String.compare r1 r2).
Proof.
  intros Hn Hm. unfold pad2. rewrite !append_cons, !compare_cons.
  change ("" +:+ r1) with r1. change ("" +:+ r2) with r2.
  rewrite !digit_compare, <- lex_assoc.
  rewrite (N.mod_small (n / 10)), (N.mod_small (m / 10))
    by (apply N.Div0.div_lt_upper_bound; lia).
  by rewrite compare_div_mod.
Qed.

Lemma pad4_compare (n m : N) (r1 r2 : string) :
  (n < 10000)%N -> (m < 10000)%N ->
  String.compare (pad4 n +:+ r1) (pad4 m +:+ r2)
    = lex (n ?= m)%N (String.compare r1 r2).
Proof.
  intros Hn Hm. unfold pad4, pad2. rewrite !append_cons, !compare_cons.
  change ("" +:+ r1) with r1. change ("" +:+ r2) with r2.
  rewrite !digit_compare, <- !lex_assoc.
  replace (n / 1000)%N with (n / 10 / 10 / 10)%N
    by (rewrite !N.Div0.div_div; reflexivity).
  replace (m / 1000)%N with (m / 10 / 10 / 10)%N
    by (rewrite !N.Div0.div_div; reflexivity).
  replace (n / 100)%N with (n / 10 / 10)%N
    by (rewrite !N.Div0.div_div; reflexivity).
  replace (m / 100)%N with (m / 10 / 10)%N
    by (rewrite !N.Div0.div_div; reflexivity).
  rewrite (N.mod_small (n / 10 / 10 / 10)), (N.mod_small (m / 10 / 10 / 10))
    by (rewrite !N.Div0.div_div; apply N.Div0.div_lt_upper_bound; lia).
  by rewrite !compare_div_mod.
Qed.

Lemma strftime_compare (t1 t2 : datetime) (r : string) :
  valid_datetime t1 -> valid_datetime t2 ->
  String.compare (strftime t1 +:+ r) (strftime t2 +:+ r)
    = datetime_compare t1 t2.
Proof.
  intros (Hy1 & Hm1 & Hd1 & Hh1 & Hn1 & Hs1 & _)
         (Hy2 & Hm2 & Hd2 & Hh2 & Hn2 & Hs2 & _).
  unfold strftime, datetime_compare. rewrite !append_assoc.
  rewrite pad4_compare by lia.
  rewrite !pad2_compare by lia.
  rewrite (compare_prefix "_").
  rewrite !pad2_compare by lia.
  rewrite compare_refl.
  destruct (year t1 ?= year t2)%N, (month t1 ?= month t2)%N,
    (day t1 ?= day t2)%N, (hour t1 ?= hour t2)%N,
    (minute t1 ?= minute t2)%N, (second t1 ?= second t2)%N; reflexivity.
Qed.

(** X12.  The timestamp format is fixed-width and most significant
    field first, so for one company the file names sort in the order in
    which the proposals were saved: comparing two names as strings
    gives the same answer as comparing the two instants, to the
    second. *)
Theorem filenames_sort_chronologically (company_name : string)
  (t1 t2 : datetime) :
  valid_datetime t1 -> valid_datetime t2 ->
  String.compare
    (AIProposalSystem.filename_of company_name (strftime t1))
    (AIProposalSystem.filename_of company_name (strftime t2))
  = datetime_compare t1 t2.
Proof.
  intros V1 V2. unfold AIProposalSystem.filename_of.
  rewrite compare_prefix, compare_prefix, (compare_prefix "_").
  by apply strftime_compare.
Qed.

Lemma filenames_sort_chronologically_witness :
  String.compare
    (AIProposalSystem.filename_of "Acme" (strftime noon))
    (AIProposalSystem.filename_of "Acme" (strftime just_after_noon))
  = Lt.
Proof.
  rewrite (filenames_sort_chronologically "Acme" noon just_after_noon
             noon_valid just_after_noon_valid).
  reflexivity.
Defined.

(** X13.  Where each search takes its credential from.  The web search
    sends the key its client holds, which is the value [TAVILY_API_KEY]
    had when the client was constructed, and its request and result
    are the same whatever the environment is at the time of the call.
    The HuggingFace search sends no header at all.  The Kaggle search
    reads [KAGGLE_API_TOKEN] on every call: it sends whatever is there
    at that moment, and when the variable is unset it still sends the
    request, with the header "Bearer None". *)
Theorem search_credentials_binding (P : Providers) (self : Tools.t)
  (query : string) (w : World) :
  let key := TavilyClient.api_key (Tools.tavily_client self) in
  let kaggle_url := Tools.kaggle_endpoint +:+ query in
  let huggingface_url := Tools.huggingface_endpoint +:+ query in
  (forall w',
     Tools.tavily_search P self query w'
       = (Ret (or_error_text "Error performing search: "
                 (tavily_text P key query)),
          logged w' [EvNet (TavilySearch key query)]) /\
     Tools.search_huggingface P self query w'
       = (Ret (or_error_text "Error searching HuggingFace: "
                 (get_json_text P huggingface_url [])),
          logged w' [EvNet (HttpGet huggingface_url [])])) /\
  (forall w0 w1,
     Tools.__init__ P w0 = (Ret self, w1) ->
     key = environ w0 !! "TAVILY_API_KEY") /\
  (forall token,
     let headers := [("Authorization", "Bearer " +:+ token)] in
     Tools.search_kaggle P self query
       (set_environ w "KAGGLE_API_TOKEN" token)
     = (Ret (or_error_text "Error searching Kaggle: "
               (get_json_text P kaggle_url headers)),
        logged (set_environ w "KAGGLE_API_TOKEN" token)
          [EvNet (HttpGet kaggle_url headers)])) /\
  (environ w !! "KAGGLE_API_TOKEN" = None ->
   let headers := [("Authorization", "Bearer None")] in
   Tools.search_kaggle P self query w
     = (Ret (or_error_text "Error searching Kaggle: "
               (get_json_text P kaggle_url headers)),
        logged w [EvNet (HttpGet kaggle_url headers)])).
Proof.
  intros key kaggle_url huggingface_url. split; [|split; [|split]].
  - intros w'. by rewrite tavily_search_run, search_huggingface_run.
  - intros w0 w1. unfold Tools.__init__, bind, getenv, emit, raise, ret.
    destruct (tavily_client_error P _); [discriminate|].
    by intros [= <- _].
  - intros token headers. rewrite search_kaggle_run.
    cbn [set_environ environ]. by rewrite lookup_insert_eq.
  - intros Hunset headers. by rewrite search_kaggle_run, Hunset.
Qed.

(** X14.  The company name enters a run through the instructions of the
    research and market tasks only, and it is put there as it is:
    different names give different instructions, while the resource and
    proposal tasks, and all four agents, are the same for every
    company. *)
Theorem company_name_reaches_two_tasks (P : Providers)
  (self : AIProposalSystem.t) (c1 c2 : string) :
  let crew1 := AIProposalSystem.crew_of P self c1 in
  let crew2 := AIProposalSystem.crew_of P self c2 in
  Crew.agents crew1 = Crew.agents crew2 /\
  drop 2 (Crew.tasks crew1) = drop 2 (Crew.tasks crew2) /\
  (forall i task1 task2,
     Crew.tasks crew1 !! i = Some task1 ->
     Crew.tasks crew2 !! i = Some task2 ->
     i < 2 ->
     Task.description task1 = Task.description task2 ->
     c1 = c2).
Proof.
  intros crew1 crew2. split; [reflexivity|]. split; [reflexivity|].
  intros i task1 task2 Ht1 Ht2 Hi Hd.
  destruct i as [|[|i]]; [| |lia]; simpl in Ht1, Ht2;
    injection Ht1 as <-; injection Ht2 as <-;
    cbn [Task.description TaskFactory.create_research_task
         TaskFactory.create_market_task] in Hd;
    apply append_cancel_l in Hd;
    by apply append_split_unique in Hd as [-> _].
Qed.
